(** * Pain Points Finder: the submit handler of [src/App.jsx]

    A shallow embedding of [handleSearch] (App.jsx, lines 15-134): input
    validation, construction of the outbound request, the call to the
    transport, and the normalisation of the decoded response body.

    The handler works on untyped JSON, so the embedding starts with the
    fragment of JavaScript's dynamic semantics the handler relies on:
    property reads, truthiness, conversion to string and [JSON.stringify]. *)

From Stdlib Require Import String Ascii List Bool Arith Lia.
Import ListNotations.
Open Scope string_scope.

(* ===================================================================== *)
(** ** JavaScript values decoded from JSON *)
(* ===================================================================== *)

Module JS.

(** What [response.json()] can resolve to.  A number is carried as its
    canonical rendering (the text [Number.prototype.toString] yields, which
    is [0] for both zeroes, and [Infinity] for a literal that overflows): the
    handler never computes with the numbers of a response, it only tests,
    prints and concatenates them.  Strings are sequences of bytes (UTF-8).
    An object is the list of its own properties in enumeration order. *)
#[warnings="-register-all"]
Inductive json : Type :=
| JNull
| JBool (b : bool)
| JNum (repr : string)
| JStr (s : string)
| JArr (items : list json)
| JObj (props : list (string * json)).

(** A JavaScript value met by the handler: [None] is [undefined]. *)
Definition value : Type := option json.
Definition undefined : value := None.
Definition null : value := Some JNull.

(** Faults the engine raises as a [TypeError]. *)
Inductive fault : Type :=
| CannotReadNull (prop : string)        (* null.prop *)
| CannotReadUndefined (prop : string)   (* undefined.prop *)
| CannotConvertToPrimitive.             (* no callable toString / valueOf *)

(** Thrown values, as far as the [catch] clause can tell them apart. *)
Inductive exn : Type :=
| Error (message : string)      (* [new Error(message)], line 88 *)
| TypeError (f : fault)         (* raised by the engine *)
| Rejection (message : string). (* a rejected promise of the transport *)

Inductive outcome (A : Type) : Type :=
| Ok (a : A)
| Throw (e : exn).
Arguments Ok {A} a.
Arguments Throw {A} e.

Definition bind {A B : Type} (c : outcome A) (k : A -> outcome B) : outcome B :=
  match c with
  | Ok a => k a
  | Throw e => Throw e
  end.

Notation "x <- c ;; k" := (bind c (fun x => k))
  (at level 61, c at next level, right associativity).

Definition is_ok {A : Type} (c : outcome A) : bool :=
  match c with Ok _ => true | Throw _ => false end.

(** *** Property reads *)

Fixpoint lookup (name : string) (props : list (string * json)) : value :=
  match props with
  | [] => undefined
  | (k, v) :: rest => if String.eqb k name then Some v else lookup name rest
  end.

(** [own j name] is [j.name] for a base [j] that is not null, and a [name]
    that is neither an array index nor a property of a built-in prototype
    (the handler reads output, type, content, text, summary, choices,
    message, output_text and error: none is inherited).  Primitives and
    arrays have no such property. *)
Definition own (j : json) (name : string) : value :=
  match j with
  | JObj props => lookup name props
  | _ => undefined
  end.

(** [v.name]: reading a property of null or undefined raises. *)
Definition get (v : value) (name : string) : outcome value :=
  match v with
  | None => Throw (TypeError (CannotReadUndefined name))
  | Some JNull => Throw (TypeError (CannotReadNull name))
  | Some j => Ok (own j name)
  end.

(** [j[0]] for a base that is not null: the first element of an array, the
    first character of a string, the property named 0 of an object. *)
Definition own0 (j : json) : value :=
  match j with
  | JArr (x :: _) => Some x
  | JStr (String c _) => Some (JStr (String c EmptyString))
  | JObj props => lookup "0" props
  | _ => undefined
  end.

Definition get0 (v : value) : outcome value :=
  match v with
  | None => Throw (TypeError (CannotReadUndefined "0"))
  | Some JNull => Throw (TypeError (CannotReadNull "0"))
  | Some j => Ok (own0 j)
  end.

(** [v?.name] *)
Definition get_opt (v : value) (name : string) : outcome value :=
  match v with
  | None | Some JNull => Ok undefined
  | Some j => Ok (own j name)
  end.

(** *** Tests *)

(** ToBoolean *)
Definition truthy (v : value) : bool :=
  match v with
  | None => false
  | Some JNull => false
  | Some (JBool b) => b
  | Some (JNum repr) => negb (String.eqb repr "0")
  | Some (JStr s) => negb (String.eqb s EmptyString)
  | Some (JArr _) => true
  | Some (JObj _) => true
  end.

Definition isArray (v : value) : bool :=
  match v with Some (JArr _) => true | _ => false end.

(** [typeof v === 'string'] *)
Definition typeof_string (v : value) : bool :=
  match v with Some (JStr _) => true | _ => false end.

(** [v === lit] for a string literal [lit] *)
Definition strict_eq (v : value) (lit : string) : bool :=
  match v with Some (JStr s) => String.eqb s lit | _ => false end.

Fixpoint has_own (name : string) (props : list (string * json)) : bool :=
  match props with
  | [] => false
  | (k, _) :: rest => String.eqb k name || has_own name rest
  end.

(** *** ToString

    What string concatenation and [new Error(v)] make of a value.  A decoded
    object is never callable, so an own property named toString leaves an
    object without a usable conversion and the engine raises; any other
    object prints as [[object Object]].  An array prints its elements joined
    by commas, null elements as nothing. *)
Fixpoint to_string_json (j : json) : outcome string :=
  match j with
  | JNull => Ok "null"
  | JBool b => Ok (if b then "true" else "false")
  | JNum repr => Ok repr
  | JStr s => Ok s
  | JArr items =>
      (fix join (l : list json) : outcome string :=
         match l with
         | [] => Ok EmptyString
         | x :: rest =>
             s <- match x with JNull => Ok EmptyString | _ => to_string_json x end ;;
             match rest with
             | [] => Ok s
             | _ :: _ => r <- join rest ;; Ok (s ++ "," ++ r)
             end
         end) items
  | JObj props =>
      if has_own "toString" props
      then Throw (TypeError CannotConvertToPrimitive)
      else Ok "[object Object]"
  end.

Definition to_string (v : value) : outcome string :=
  match v with
  | None => Ok "undefined"
  | Some j => to_string_json j
  end.

(** *** JSON.stringify(data, null, 2) *)

Definition nl : string := String "010"%char EmptyString.
Definition dq : string := String "034"%char EmptyString.

Definition hex_digit (n : nat) : string :=
  match n with
  | 0 => "0" | 1 => "1" | 2 => "2" | 3 => "3" | 4 => "4" | 5 => "5"
  | 6 => "6" | 7 => "7" | 8 => "8" | 9 => "9" | 10 => "a" | 11 => "b"
  | 12 => "c" | 13 => "d" | 14 => "e" | _ => "f"
  end.

Definition escape_char (c : ascii) : string :=
  let n := nat_of_ascii c in
  if Nat.eqb n 8 then "\b"
  else if Nat.eqb n 9 then "\t"
  else if Nat.eqb n 10 then "\n"
  else if Nat.eqb n 12 then "\f"
  else if Nat.eqb n 13 then "\r"
  else if Nat.eqb n 34 then "\" ++ dq
  else if Nat.eqb n 92 then "\\"
  else if Nat.ltb n 32 then "\u00" ++ hex_digit (n / 16) ++ hex_digit (n mod 16)
  else String c EmptyString.

Fixpoint escape (s : string) : string :=
  match s with
  | EmptyString => EmptyString
  | String c rest => escape_char c ++ escape rest
  end.

(** QuoteJSONString *)
Definition quote (s : string) : string := dq ++ escape s ++ dq.

Fixpoint join_with (sep : string) (l : list string) : string :=
  match l with
  | [] => EmptyString
  | [s] => s
  | s :: rest => s ++ sep ++ join_with sep rest
  end.

(** Serialisation with a gap of two spaces; [indent] is the indentation of
    the enclosing holder.  A number that is not finite serialises as null. *)
Fixpoint stringify_at (indent : string) (j : json) : string :=
  let inner := indent ++ "  " in
  match j with
  | JNull => "null"
  | JBool b => if b then "true" else "false"
  | JNum repr =>
      if String.eqb repr "Infinity" || String.eqb repr "-Infinity"
      then "null" else repr
  | JStr s => quote s
  | JArr [] => "[]"
  | JArr items =>
      "[" ++ nl ++ inner
          ++ join_with ("," ++ nl ++ inner) (map (stringify_at inner) items)
          ++ nl ++ indent ++ "]"
  | JObj [] => "{}"
  | JObj props =>
      "{" ++ nl ++ inner
          ++ join_with ("," ++ nl ++ inner)
               (map (fun kv => quote (fst kv) ++ ": " ++ stringify_at inner (snd kv)) props)
          ++ nl ++ indent ++ "}"
  end.

Definition stringify (j : json) : string := stringify_at EmptyString j.

End JS.

(* ===================================================================== *)
(** ** Response normalisation (App.jsx, lines 93-127) *)
(* ===================================================================== *)

Module Normalizer.
Import JS.

(** The object handed to [setResult] on line 127. *)
Record result : Type := Result { content : value; reasoning : value }.

(** [Array.prototype.forEach] with a callback that updates captured
    variables: the variables are threaded through, and a callback that
    raises ends the iteration. *)
Fixpoint forEach {S : Type} (f : S -> json -> outcome S) (items : list json) (s : S)
  : outcome S :=
  match items with
  | [] => Ok s
  | x :: rest => s' <- f s x ;; forEach f rest s'
  end.

(** Lines 103-107, the callback over the parts of a message. *)
Definition part_step (content : string) (part : json) : outcome string :=
  ty <- get (Some part) "type" ;;
  if strict_eq ty "output_text" then
    text <- get (Some part) "text" ;;
    s <- to_string text ;;
    Ok (content ++ s)
  else Ok content.

(** Lines 99-116, the callback over the items of [data.output].  The state
    is the pair of the variables [content] (a string throughout this branch)
    and [reasoning]. *)
Definition item_step (st : string * value) (item : json) : outcome (string * value) :=
  let '(content, reasoning) := st in
  ty <- get (Some item) "type" ;;
  content' <-
    (if strict_eq ty "message" then
       c <- get (Some item) "content" ;;
       if truthy c then
         if isArray c then
           match c with
           | Some (JArr parts) => forEach part_step parts content
           | _ => Ok content
           end
         else if typeof_string c then
           match c with
           | Some (JStr s) => Ok (content ++ s)
           | _ => Ok content
           end
         else Ok content
       else Ok content
     else Ok content) ;;
  ty' <- get (Some item) "type" ;;
  if strict_eq ty' "reasoning" then
    summary <- get (Some item) "summary" ;;
    Ok (content', summary)
  else Ok (content', reasoning).

Definition diagnostic_prefix : string :=
  "Could not parse standard response format. Raw Output:" ++ nl ++ "```json" ++ nl.
Definition diagnostic_suffix : string := nl ++ "```".

(** Lines 94-127: from the decoded body to the value given to [setResult]. *)
Definition normalize (data : json) : outcome result :=
  let content := EmptyString in
  let reasoning := null in
  output <- get (Some data) "output" ;;
  if truthy output && isArray output then
    match output with
    | Some (JArr items) =>
        st <- forEach item_step items (content, reasoning) ;;
        Ok (Result (Some (JStr (fst st))) (snd st))
    | _ => Ok (Result (Some (JStr content)) reasoning)
    end
  else
    choices <- get (Some data) "choices" ;;
    first <- (if truthy choices then get0 choices else Ok choices) ;;
    message <- (if truthy first then get first "message" else Ok first) ;;
    if truthy message then
      c <- get message "content" ;;
      Ok (Result c reasoning)
    else
      output_text <- get (Some data) "output_text" ;;
      if truthy output_text then
        Ok (Result output_text reasoning)
      else
        Ok (Result
              (Some (JStr (diagnostic_prefix ++ stringify data ++ diagnostic_suffix)))
              reasoning).

End Normalizer.

(* ===================================================================== *)
(** ** The submit handler (App.jsx, lines 15-134) *)
(* ===================================================================== *)

(** The body posted to the endpoint, before serialisation (lines 44-70 and
    79-83). *)
Module Request.

Record filters : Type := Filters { allowed_domains : list string }.
Record tool : Type := Tool { type : string; tool_filters : option filters }.
Record message : Type := Message { role : string; content : string }.
Record body : Type := Body { model : string; tools : list tool; input : list message }.
Record request : Type := Request {
  url : string;
  method : string;
  headers : list (string * string);
  payload : body
}.

End Request.

(** What the transport hands back: [fetch] resolves to a response or
    rejects, and [response.json()] resolves to the decoded body or rejects.
    A rejection is known to the handler by its message only. *)
Module Transport.

Inductive decoding : Type :=
| Decoded (data : JS.json)
| Undecodable (message : string).

Record response : Type := Response {
  ok : bool;
  statusText : string;
  body_json : decoding
}.

Inductive fetched : Type :=
| Resolved (r : response)
| Rejected (message : string).

End Transport.

Module Handler.
Import JS Normalizer.

(** The component state the handler writes (lines 11-13). *)
Record state : Type := State {
  loading : bool;
  result : option Normalizer.result;
  error : option string
}.

(** What the handler does to the outside, in order: state setters and the
    one call of [fetch].  ([e.preventDefault()] touches the form event only
    and is left out.) *)
Inductive effect : Type :=
| SetLoading (b : bool)
| SetError (e : option string)
| SetResult (r : option Normalizer.result)
| Fetch (req : Request.request).

Definition apply (st : state) (e : effect) : state :=
  match e with
  | SetLoading b => State b (result st) (error st)
  | SetError m => State (loading st) (result st) m
  | SetResult r => State (loading st) r (error st)
  | Fetch _ => st
  end.

Definition run (st : state) (trace : list effect) : state :=
  fold_left apply trace st.

Fixpoint fetches (trace : list effect) : list Request.request :=
  match trace with
  | [] => []
  | Fetch req :: rest => req :: fetches rest
  | _ :: rest => fetches rest
  end.

(** Truthiness of a string held in component state. *)
Definition nonempty (s : string) : bool := negb (String.eqb s EmptyString).

Definition developer_url : string :=
  "You are a helpful assistant. Search the provided url and give me the company pain points. Format your response in clean Markdown with headers and bullet points.".
Definition developer_name : string :=
  "You are a helpful assistant. Do web search and give me the company pain points. Format your response in clean Markdown with headers and bullet points.".

Section WithPlatform.

(** Two services of the platform are taken as given: [hostname s] is
    [new URL(s).hostname], or [None] when the constructor throws; and
    [fault_message f] is the text the engine gives the [TypeError] it
    raises for [f]. *)
Variable hostname : string -> option string.
Variable fault_message : fault -> string.

(** [err.message] in the catch clause (line 130). *)
Definition message_of (e : exn) : string :=
  match e with
  | Error m => m
  | TypeError f => fault_message f
  | Rejection m => m
  end.

(** Lines 30-70: tools and messages for the two kinds of input. *)
Definition build (companyName companyUrl : string)
  : list Request.tool * list Request.message :=
  let isUrlProvided := nonempty companyUrl in
  if isUrlProvided then
    let domain :=
      match hostname companyUrl with
      | Some h => h
      | None => companyUrl
      end in
    ([Request.Tool "web_search" (Some (Request.Filters [domain]))],
     [Request.Message "developer" developer_url;
      Request.Message "user" ("Find pain points for " ++ companyUrl)])
  else
    ([Request.Tool "web_search" None],
     [Request.Message "developer" developer_name;
      Request.Message "user" ("Find pain points for company: " ++ companyName)]).

(** Lines 73-84: the call given to [fetch]. *)
Definition request_of (apiKey : string)
  (built : list Request.tool * list Request.message) : Request.request :=
  Request.Request "https://api.openai.com/v1/responses" "POST"
    [("Content-Type", "application/json"); ("Authorization", "Bearer " ++ apiKey)]
    (Request.Body "gpt-5-nano" (fst built) (snd built)).

Definition decode (r : Transport.response) : outcome json :=
  match Transport.body_json r with
  | Transport.Decoded data => Ok data
  | Transport.Undecodable m => Throw (Rejection m)
  end.

(** Lines 73-127, the body of the [try] block after the request is sent. *)
Definition respond (f : Transport.fetched) : outcome Normalizer.result :=
  response <- match f with
              | Transport.Resolved r => Ok r
              | Transport.Rejected m => Throw (Rejection m)
              end ;;
  if negb (Transport.ok response) then
    errData <- decode response ;;
    err <- get (Some errData) "error" ;;
    m <- get_opt err "message" ;;
    msg <- to_string (if truthy m then m else Some (JStr (Transport.statusText response))) ;;
    Throw (Error msg)
  else
    data <- decode response ;;
    normalize data.

(** Lines 127 and 129-130: the result is stored, or else the message of
    what was thrown. *)
Definition settle (o : outcome Normalizer.result) : list effect :=
  match o with
  | Ok r => [SetResult (Some r)]
  | Throw e => [SetError (Some (message_of e))]
  end.

(** Lines 15-134.  [apiKey], [companyName] and [companyUrl] are the state
    values the handler closes over; [transport] answers the request. *)
Definition handleSearch (apiKey companyName companyUrl : string)
  (transport : Request.request -> Transport.fetched) : list effect :=
  if negb (nonempty apiKey) then
    [SetError (Some "API Key not found in environment.")]
  else if negb (nonempty companyName) && negb (nonempty companyUrl) then
    [SetError (Some "Please provide a company name or URL.")]
  else
    let req := request_of apiKey (build companyName companyUrl) in
    [SetLoading true; SetError None; SetResult None; Fetch req]
      ++ settle (respond (transport req))
      ++ [SetLoading false].

End WithPlatform.

End Handler.

(* ===================================================================== *)
(** ** The documented behaviour, and pure readings of the branch tests *)
(* ===================================================================== *)

Module Spec.
Import JS Normalizer.

(** A property of a value that may be missing: nothing is found under
    undefined (or under null, see [own]). *)
Definition field (v : value) (name : string) : value :=
  match v with
  | Some j => own j name
  | None => undefined
  end.

Definition is_kind (kind : string) (j : json) : bool :=
  strict_eq (own j "type") kind.

Definition is_null (j : json) : bool :=
  match j with JNull => true | _ => false end.

Fixpoint concat_all (l : list string) : string :=
  match l with
  | [] => EmptyString
  | s :: rest => s ++ concat_all rest
  end.

(** *** The extraction rule for an output sequence, as documented

    For each item of kind message: when its content is a sequence, the text
    of every sub-item of kind output_text, in order; when it is a plain
    string, that string.  The reasoning is the summary of the last item of
    kind reasoning. *)

(** The text of a sub-item, as string concatenation reads it. *)
Definition text_of (part : json) : string :=
  match to_string (own part "text") with
  | Ok s => s
  | Throw _ => EmptyString
  end.

Definition message_text (item : json) : string :=
  match own item "content" with
  | Some (JArr parts) => concat_all (map text_of (filter (is_kind "output_text") parts))
  | Some (JStr s) => s
  | _ => EmptyString
  end.

Definition output_content (items : list json) : string :=
  concat_all (map message_text (filter (is_kind "message") items)).

Definition reasoning_from (init : value) (items : list json) : value :=
  match rev (filter (is_kind "reasoning") items) with
  | [] => init
  | last :: _ => own last "summary"
  end.

Definition output_reasoning (items : list json) : value := reasoning_from null items.

(** *** The documented shape rules, in table order *)

(** Rule 1: an object whose output field is a sequence. *)
Definition output_sequence (data : json) : option (list json) :=
  match own data "output" with
  | Some (JArr items) => Some items
  | _ => None
  end.

(** Rule 2: an object with a choices sequence whose first entry's
    message.content exists. *)
Definition choices_content (data : json) : option json :=
  match own data "choices" with
  | Some (JArr (first :: _)) => field (own first "message") "content"
  | _ => None
  end.

(** Rule 3: an object with a top-level output_text string. *)
Definition output_text_string (data : json) : option string :=
  match own data "output_text" with
  | Some (JStr s) => Some s
  | _ => None
  end.

Definition diagnostic (data : json) : string :=
  diagnostic_prefix ++ stringify data ++ diagnostic_suffix.

(** The documented normaliser: first matching rule wins, reasoning is left
    unset (null) outside rule 1. *)
Definition documented (data : json) : result :=
  match output_sequence data with
  | Some items => Result (Some (JStr (output_content items))) (output_reasoning items)
  | None =>
      match choices_content data with
      | Some c => Result (Some c) null
      | None =>
          match output_text_string data with
          | Some s => Result (Some (JStr s)) null
          | None => Result (Some (JStr (diagnostic data))) null
          end
      end
  end.

(** *** Pure readings of the tests the code makes *)

(** The value of [data.choices && data.choices[0] && data.choices[0].message]
    (line 117) for a [data] that is not null. *)
Definition choices_message (data : json) : value :=
  let choices := own data "choices" in
  let first :=
    if truthy choices
    then match choices with Some j => own0 j | None => undefined end
    else choices in
  if truthy first then field first "message" else first.

(** No branch of lines 97-121 is taken. *)
Definition unrecognised (data : json) : bool :=
  negb (isArray (own data "output"))
  && negb (truthy (choices_message data))
  && negb (truthy (own data "output_text")).

(** The items of an output sequence the iteration gets through: no item is
    null, no part of a message's content sequence is null, and the text of
    every output_text part converts to a string. *)
Definition part_ok (part : json) : bool :=
  negb (is_null part)
  && (if is_kind "output_text" part then is_ok (to_string (own part "text")) else true).

Definition item_ok (item : json) : bool :=
  negb (is_null item)
  && (if is_kind "message" item
      then match own item "content" with
           | Some (JArr parts) => forallb part_ok parts
           | _ => true
           end
      else true).

(** When [normalize] returns rather than raises. *)
Definition returns (data : json) : bool :=
  negb (is_null data)
  && match own data "output" with
     | Some (JArr items) => forallb item_ok items
     | _ => true
     end.

Definition is_string (v : value) : bool :=
  match v with Some (JStr _) => true | _ => false end.

(** Both guards of lines 17-24 let the submission through. *)
Definition passes_validation (apiKey companyName companyUrl : string) : bool :=
  Handler.nonempty apiKey && (Handler.nonempty companyName || Handler.nonempty companyUrl).

Definition missing_key : string := "API Key not found in environment.".
Definition missing_target : string := "Please provide a company name or URL.".

End Spec.

(* ===================================================================== *)
(** ** Sample inputs *)
(* ===================================================================== *)

Module Samples.
Import JS.

Definition output_text_part (text : string) : json :=
  JObj [("type", JStr "output_text"); ("text", JStr text)].

(** { output: [ { type: message, content: [ Hello, / world. ] } ] } *)
Definition hello : json :=
  JObj [("output",
         JArr [JObj [("type", JStr "message");
                     ("content", JArr [output_text_part "Hello, ";
                                       output_text_part "world."])]])].

(** { output: [ { type: reasoning, summary: first },
                { type: message, content: Done. },
                { type: reasoning, summary: second } ] } *)
Definition two_reasonings : json :=
  JObj [("output",
         JArr [JObj [("type", JStr "reasoning"); ("summary", JStr "first")];
               JObj [("type", JStr "message"); ("content", JStr "Done.")];
               JObj [("type", JStr "reasoning"); ("summary", JStr "second")]])].

(** { foo: bar } *)
Definition foo_bar : json := JObj [("foo", JStr "bar")].


(** { choices: [ { message: { content: X } } ] } *)
Definition choices_x : json :=
  JObj [("choices", JArr [JObj [("message", JObj [("content", JStr "X")])]])].



(** { output: [ { type: message, content: Hi }, null ] } *)
Definition null_item : json :=
  JObj [("output",
         JArr [JObj [("type", JStr "message"); ("content", JStr "Hi")]; JNull])].

(** { error: { message: bad key } } *)
Definition bad_key : json := JObj [("error", JObj [("message", JStr "bad key")])].

(** A platform for the closed examples: a URL parser that knows one
    address, and the wording V8 gives its type errors. *)
Definition hostname (s : string) : option string :=
  if String.eqb s "https://tesla.com" then Some "tesla.com" else None.

Definition fault_message (f : fault) : string :=
  match f with
  | CannotReadNull prop => "Cannot read properties of null (reading '" ++ prop ++ "')"
  | CannotReadUndefined prop =>
      "Cannot read properties of undefined (reading '" ++ prop ++ "')"
  | CannotConvertToPrimitive => "Cannot convert object to primitive value"
  end.

(** Transports that answer every request the same way. *)
Definition answers (ok : bool) (statusText : string) (data : json)
  : Request.request -> Transport.fetched :=
  fun _ => Transport.Resolved (Transport.Response ok statusText (Transport.Decoded data)).

(** The component state at mount. *)
Definition idle : Handler.state := Handler.State false None None.

(** A component state showing the result of an earlier, successful query. *)
Definition succeeded : Handler.state :=
  Handler.State false (Some (Normalizer.Result (Some (JStr "earlier analysis")) null)) None.

End Samples.

(* ===================================================================== *)
(** ** The rendered form and the life of the component (App.jsx, 7-13, 136-236) *)
(* ===================================================================== *)

Module View.
Import JS Normalizer Handler.

(** The parts of the rendered tree that depend on state. *)
Record view : Type := View {
  name_disabled : bool;          (* line 170 *)
  url_disabled : bool;           (* line 187 *)
  submit_disabled : bool;        (* line 191 *)
  submit_label : string;         (* lines 192-200 *)
  error_banner : option string;  (* lines 205-214 *)
  result_panel : option value    (* lines 216-227, the child of ReactMarkdown *)
}.

(** Lines 136-236.  [error && ...] renders nothing for null and for the
    empty string; [result && ...] renders for every stored object. *)
Definition render (companyName companyUrl : string) (st : state) : view :=
  View (nonempty companyUrl || loading st)
       (nonempty companyName || loading st)
       (loading st)
       (if loading st then "Analyzing..." else "Find Pain Points")
       (match error st with
        | Some m => if nonempty m then Some m else None
        | None => None
        end)
       (match result st with
        | Some r => Some (Normalizer.content r)
        | None => None
        end).

(** The handler is asynchronous: it runs up to [await fetch(...)] when the
    form is submitted and goes on when the promise settles. *)
Definition is_fetch (e : effect) : bool :=
  match e with Fetch _ => true | _ => false end.

Fixpoint before_await (trace : list effect) : list effect :=
  match trace with
  | [] => []
  | e :: rest => if is_fetch e then [e] else e :: before_await rest
  end.

Fixpoint after_await (trace : list effect) : list effect :=
  match trace with
  | [] => []
  | e :: rest => if is_fetch e then rest else after_await rest
  end.

(** The component: the two inputs, the state the handler writes, and the
    invocations of the handler that are waiting for their fetch, each with
    the inputs it closed over.  (The credential never changes: [setApiKey]
    is not used.) *)
Record component : Type := Component {
  companyName : string;
  companyUrl : string;
  ui : state;
  awaiting : list (string * string)
}.

(** Lines 9-13: the state at mount. *)
Definition initial : component :=
  Component EmptyString EmptyString (State false None None) [].

(** What can happen to the component.  A disabled input cannot be edited,
    and a form whose submit button is disabled cannot be submitted. *)
Inductive event : Type :=
| ChangeName (text : string)                  (* line 169 *)
| ChangeUrl (text : string)                   (* line 186 *)
| Submit                                      (* line 158 *)
| Settle (k : nat) (f : Transport.fetched).   (* the k-th pending fetch settles *)

Fixpoint remove_nth {A : Type} (k : nat) (l : list A) : list A :=
  match l, k with
  | [], _ => []
  | _ :: rest, 0 => rest
  | x :: rest, S k' => x :: remove_nth k' rest
  end.

Section WithPlatform.

Variable hostname : string -> option string.
Variable fault_message : fault -> string.
Variable apiKey : string.

(** The effects of an invocation before it waits.  They do not depend on
    the answer of the transport, which is not known yet. *)
Definition start (name url : string) : list effect :=
  before_await
    (handleSearch hostname fault_message apiKey name url
       (fun _ => Transport.Rejected EmptyString)).

Definition suspends (name url : string) : bool :=
  existsb is_fetch (start name url).

(** The effects of an invocation once its fetch has settled with [f]. *)
Definition resume (name url : string) (f : Transport.fetched) : list effect :=
  after_await (handleSearch hostname fault_message apiKey name url (fun _ => f)).

(** One event; [None] when the rendered form does not allow it. *)
Definition step (c : component) (e : event) : option component :=
  let v := render (companyName c) (companyUrl c) (ui c) in
  match e with
  | ChangeName text =>
      if name_disabled v then None
      else Some (Component text (companyUrl c) (ui c) (awaiting c))
  | ChangeUrl text =>
      if url_disabled v then None
      else Some (Component (companyName c) text (ui c) (awaiting c))
  | Submit =>
      if submit_disabled v then None
      else Some (Component (companyName c) (companyUrl c)
                   (run (ui c) (start (companyName c) (companyUrl c)))
                   (if suspends (companyName c) (companyUrl c)
                    then awaiting c ++ [(companyName c, companyUrl c)]
                    else awaiting c))
  | Settle k f =>
      match nth_error (awaiting c) k with
      | Some (name, url) =>
          Some (Component (companyName c) (companyUrl c)
                  (run (ui c) (resume name url f))
                  (remove_nth k (awaiting c)))
      | None => None
      end
  end.

Inductive reachable : component -> Prop :=
| reachable_initial : reachable initial
| reachable_step (c c' : component) (e : event) :
    reachable c -> step c e = Some c' -> reachable c'.

End WithPlatform.

End View.

(* ===================================================================== *)
(** ** The earlier revision of the handler (second source file, line 105) *)
(* ===================================================================== *)

Module Legacy.
Import JS.

(** [v?.[0]] *)
Definition get0_opt (v : value) : outcome value :=
  match v with
  | None | Some JNull => Ok undefined
  | Some j => Ok (own0 j)
  end.

(** Line 105: [data.output_text || data.choices?.[0]?.message?.content ||
    JSON.stringify(data, null, 2)], the value given to [setResult]. *)
Definition extract (data : json) : outcome value :=
  output_text <- get (Some data) "output_text" ;;
  if truthy output_text then Ok output_text
  else
    choices <- get (Some data) "choices" ;;
    first <- get0_opt choices ;;
    message <- get_opt first "message" ;;
    c <- get_opt message "content" ;;
    if truthy c then Ok c
    else Ok (Some (JStr (stringify data))).

End Legacy.

(** Further sample inputs. *)
Module MoreSamples.
Import JS.

(** { output: items } *)
Definition output_body (items : list json) : json := JObj [("output", JArr items)].

Definition message_item (text : string) : json :=
  JObj [("type", JStr "message"); ("content", JStr text)].

Definition reasoning_item (summary : string) : json :=
  JObj [("type", JStr "reasoning"); ("summary", JStr summary)].

(** An item of a kind the handler does not know. *)
Definition web_search_call : json :=
  JObj [("type", JStr "web_search_call"); ("status", JStr "completed")].

(** The items the iteration of lines 99-116 acts on. *)
Definition relevant (item : json) : bool :=
  Spec.is_kind "message" item || Spec.is_kind "reasoning" item.

(** The form after typing a name and submitting it with a credential. *)
Definition tesla_in_flight : View.component :=
  View.Component "Tesla" EmptyString (Handler.State true None None)
    [("Tesla", EmptyString)].

End MoreSamples.

(* ===================================================================== *)
(** ** Facts about the value model *)
(* ===================================================================== *)

Module JSFacts.
Import JS.

Lemma append_nil_r (s : string) : s ++ EmptyString = s.
Proof. induction s as [|c s IH]; simpl; [reflexivity | now rewrite IH]. Qed.

Lemma append_assoc (a b c : string) : (a ++ b) ++ c = a ++ (b ++ c).
Proof. induction a as [|x a IH]; simpl; [reflexivity | now rewrite IH]. Qed.

Lemma get_not_null (j : json) (name : string) :
  j <> JNull -> get (Some j) name = Ok (own j name).
Proof. destruct j; simpl; intros H; try reflexivity. now elim H. Qed.

Lemma truthy_not_null (v : value) : truthy v = true -> exists j, v = Some j /\ j <> JNull.
Proof.
  destruct v as [j|]; simpl; [|discriminate].
  intros H. exists j. split; [reflexivity|].
  intros ->. discriminate.
Qed.

Lemma bind_ok {A B : Type} (a : A) (k : A -> outcome B) : bind (Ok a) k = k a.
Proof. reflexivity. Qed.

End JSFacts.

(* ===================================================================== *)
(** ** Facts about the normaliser *)
(* ===================================================================== *)

Module NormalizerFacts.
Import JS Normalizer Spec JSFacts.

Ltac case_if :=
  match goal with
  | |- context [if ?b then _ else _] => destruct b eqn:?
  end.

Ltac reads Hn :=
  repeat (progress (rewrite ?(get_not_null _ _ Hn), ?bind_ok; cbv beta)).

Ltac finish Hn :=
  reads Hn; rewrite ?append_nil_r;
  destruct (strict_eq _ "reasoning"); reads Hn; reflexivity.

Lemma is_null_false (j : json) : is_null j = false -> j <> JNull.
Proof. intros H ->. discriminate. Qed.

Lemma forEach_is_ok {S : Type} (f : S -> json -> outcome S) (p : json -> bool) :
  (forall s x, is_ok (f s x) = p x) ->
  forall items s, is_ok (forEach f items s) = forallb p items.
Proof.
  intros Hf. induction items as [|x rest IH]; intros s; simpl; [reflexivity|].
  specialize (Hf s x). destruct (f s x) as [s'|e]; simpl in *.
  - rewrite <- Hf. simpl. apply IH.
  - rewrite <- Hf. reflexivity.
Qed.

(** One part of a message: lines 104-106. *)
Lemma part_step_ok (content : string) (part : json) :
  part_ok part = true ->
  part_step content part
  = Ok (content ++ (if is_kind "output_text" part then text_of part else EmptyString)).
Proof.
  unfold part_ok, part_step. intros H.
  apply andb_prop in H as [Hn Ht].
  apply negb_true_iff, is_null_false in Hn.
  rewrite (get_not_null _ _ Hn). rewrite ?bind_ok; cbv beta.
  fold (is_kind "output_text" part).
  destruct (is_kind "output_text" part).
  - rewrite (get_not_null _ _ Hn). rewrite ?bind_ok; cbv beta.
    unfold text_of. destruct (to_string (own part "text")); [reflexivity | discriminate].
  - now rewrite append_nil_r.
Qed.

Lemma part_step_returns (content : string) (part : json) :
  is_ok (part_step content part) = part_ok part.
Proof.
  destruct (part_ok part) eqn:H.
  - now rewrite part_step_ok.
  - unfold part_ok in H. unfold part_step.
    destruct (is_null part) eqn:Hn.
    + destruct part; try discriminate. reflexivity.
    + apply is_null_false in Hn. simpl in H.
      rewrite (get_not_null _ _ Hn), bind_ok. cbv beta.
      fold (is_kind "output_text" part).
      destruct (is_kind "output_text" part); [|discriminate].
      rewrite (get_not_null _ _ Hn), bind_ok. cbv beta.
      destruct (to_string (own part "text")); [discriminate | reflexivity].
Qed.

Lemma forEach_parts (parts : list json) :
  forallb part_ok parts = true ->
  forall content,
    forEach part_step parts content
    = Ok (content ++ concat_all (map text_of (filter (is_kind "output_text") parts))).
Proof.
  induction parts as [|p rest IH]; simpl; intros H content.
  - now rewrite append_nil_r.
  - apply andb_prop in H as [Hp Hrest].
    rewrite (part_step_ok _ _ Hp). rewrite ?bind_ok; cbv beta. rewrite (IH Hrest).
    destruct (is_kind "output_text" p); simpl.
    + now rewrite append_assoc.
    + now rewrite append_nil_r.
Qed.

Lemma reasoning_from_cons (init : value) (item : json) (rest : list json) :
  reasoning_from init (item :: rest)
  = reasoning_from (if is_kind "reasoning" item then own item "summary" else init) rest.
Proof.
  unfold reasoning_from. simpl.
  destruct (is_kind "reasoning" item); [|reflexivity].
  simpl. destruct (rev (filter (is_kind "reasoning") rest)); reflexivity.
Qed.

(** One item of the output sequence: lines 100-115. *)
Lemma item_step_ok (content : string) (reasoning : value) (item : json) :
  item_ok item = true ->
  item_step (content, reasoning) item
  = Ok (content ++ (if is_kind "message" item then message_text item else EmptyString),
        if is_kind "reasoning" item then own item "summary" else reasoning).
Proof.
  unfold item_ok, item_step, message_text, is_kind. intros H.
  apply andb_prop in H as [Hn Hm].
  apply negb_true_iff, is_null_false in Hn.
  reads Hn.
  destruct (strict_eq (own item "type") "message").
  - destruct (own item "content") as [[| b | r | s | parts | props]|];
      simpl truthy; simpl isArray; simpl typeof_string; cbv iota.
    + finish Hn.
    + destruct b; finish Hn.
    + destruct (negb (r =? "0")%string); finish Hn.
    + destruct s as [|c s]; simpl negb; cbv iota; finish Hn.
    + rewrite (forEach_parts _ Hm). finish Hn.
    + finish Hn.
    + finish Hn.
  - finish Hn.
Qed.

Lemma item_step_returns (st : string * value) (item : json) :
  is_ok (item_step st item) = item_ok item.
Proof.
  destruct st as [content reasoning].
  destruct (item_ok item) eqn:H.
  - now rewrite item_step_ok.
  - unfold item_ok in H. unfold item_step.
    destruct (is_null item) eqn:Hn.
    + destruct item; try discriminate. reflexivity.
    + apply is_null_false in Hn. simpl in H.
      reads Hn. fold (is_kind "message" item).
      destruct (is_kind "message" item); [|discriminate].
      destruct (own item "content") as [[| b | r | s | parts | props']|];
        try discriminate.
      simpl truthy. simpl isArray. cbv iota.
      pose proof (forEach_is_ok part_step part_ok
                    (fun s x => part_step_returns s x) parts content) as Hp.
      rewrite H in Hp. destruct (forEach part_step parts content); [discriminate | reflexivity].
Qed.

Lemma forEach_items (items : list json) :
  forallb item_ok items = true ->
  forall content reasoning,
    forEach item_step items (content, reasoning)
    = Ok (content ++ output_content items, reasoning_from reasoning items).
Proof.
  induction items as [|x rest IH]; intros H content reasoning.
  - simpl. now rewrite append_nil_r.
  - simpl in H. apply andb_prop in H as [Hx Hrest].
    cbn [forEach]. rewrite (item_step_ok _ _ _ Hx), bind_ok.
    rewrite (IH Hrest). rewrite reasoning_from_cons.
    unfold output_content. simpl filter.
    destruct (is_kind "message" x); simpl.
    + now rewrite append_assoc.
    + now rewrite append_nil_r.
Qed.

(** The branch structure of lines 97-125 for a body that is not null. *)
Lemma normalize_view (data : json) :
  data <> JNull ->
  normalize data
  = match own data "output" with
    | Some (JArr items) =>
        bind (forEach item_step items (EmptyString, null))
             (fun st => Ok (Result (Some (JStr (fst st))) (snd st)))
    | _ =>
        if truthy (choices_message data)
        then Ok (Result (field (choices_message data) "content") null)
        else if truthy (own data "output_text")
        then Ok (Result (own data "output_text") null)
        else Ok (Result (Some (JStr (diagnostic data))) null)
    end.
Proof.
  intros Hn. unfold normalize.
  rewrite !(get_not_null _ _ Hn). rewrite ?bind_ok; cbv beta.
  assert (Hrest :
    (choices <- Ok (own data "choices") ;;
     first <- (if truthy choices then get0 choices else Ok choices) ;;
     message <- (if truthy first then get first "message" else Ok first) ;;
     (if truthy message
      then c <- get message "content" ;; Ok (Result c null)
      else output_text <- Ok (own data "output_text") ;;
           (if truthy output_text
            then Ok (Result output_text null)
            else Ok (Result
                       (Some (JStr (diagnostic_prefix ++ stringify data ++ diagnostic_suffix)))
                       null))))
    = (if truthy (choices_message data)
       then Ok (Result (field (choices_message data) "content") null)
       else if truthy (own data "output_text")
       then Ok (Result (own data "output_text") null)
       else Ok (Result (Some (JStr (diagnostic data))) null))).
  { unfold choices_message, diagnostic. rewrite ?bind_ok; cbv beta.
    destruct (truthy (own data "choices")) eqn:Hc.
    - destruct (truthy_not_null _ Hc) as (c & -> & Hcn).
      assert (get0 (Some c) = Ok (own0 c)) as -> by (destruct c; try reflexivity; now elim Hcn).
      rewrite ?bind_ok; cbv beta.
      destruct (truthy (own0 c)) eqn:Hf.
      + destruct (truthy_not_null _ Hf) as (f & -> & Hfn).
        rewrite (get_not_null _ _ Hfn). rewrite ?bind_ok; cbv beta. simpl field.
        destruct (truthy (own f "message")) eqn:Hm; [|reflexivity].
        destruct (truthy_not_null _ Hm) as (m & -> & Hmn).
        now rewrite (get_not_null _ _ Hmn).
      + rewrite ?bind_ok; cbv beta. rewrite Hf. reflexivity.
    - rewrite ?bind_ok; cbv beta. rewrite Hc. rewrite ?bind_ok; cbv beta. rewrite Hc. reflexivity. }
  destruct (own data "output") as [[| b | r | s | items | props]|];
    simpl truthy; simpl isArray; cbv iota; simpl andb; try exact Hrest.
  - destruct b; exact Hrest.
  - destruct (negb (r =? "0")%string); exact Hrest.
  - destruct (negb (s =? EmptyString)%string); exact Hrest.
  - reflexivity.
Qed.

(** *** When the normaliser returns, and what it returns *)

Lemma normalize_is_ok (data : json) : is_ok (Normalizer.normalize data) = returns data.
Proof.
  unfold returns. destruct (is_null data) eqn:Hn.
  - destruct data; try discriminate. reflexivity.
  - apply is_null_false in Hn. rewrite (normalize_view _ Hn). simpl negb. simpl andb.
    destruct (own data "output") as [[| b | r | s | items | props]|];
      try (repeat case_if; reflexivity).
    pose proof (forEach_is_ok item_step item_ok
                  (fun s x => item_step_returns s x) items (EmptyString, null)) as Hi.
    rewrite <- Hi. destruct (forEach item_step items (EmptyString, null)); reflexivity.
Qed.

Lemma normalize_output (data : json) (items : list json) :
  own data "output" = Some (JArr items) ->
  forallb item_ok items = true ->
  Normalizer.normalize data
  = Ok (Result (Some (JStr (output_content items))) (output_reasoning items)).
Proof.
  intros Ho Hok.
  assert (Hn : data <> JNull) by (intros ->; discriminate).
  rewrite (normalize_view _ Hn), Ho, (forEach_items _ Hok). reflexivity.
Qed.

Lemma normalize_unrecognised (data : json) :
  data <> JNull ->
  unrecognised data = true ->
  Normalizer.normalize data = Ok (Result (Some (JStr (diagnostic data))) null).
Proof.
  intros Hn Hu. unfold unrecognised in Hu.
  apply andb_prop in Hu as [Hu Ht]. apply andb_prop in Hu as [Ha Hc].
  apply negb_true_iff in Ha, Hc, Ht.
  rewrite (normalize_view _ Hn), Hc, Ht.
  destruct (own data "output") as [[| b | r | s | items | props]|];
    try reflexivity; discriminate.
Qed.

(** *** What the iteration can raise *)

(** Induction over decoded values, through arrays and objects. *)
Section NestedInduction.

Variable P : json -> Prop.
Hypothesis Hnull : P JNull.
Hypothesis Hbool : forall b, P (JBool b).
Hypothesis Hnum : forall repr, P (JNum repr).
Hypothesis Hstr : forall s, P (JStr s).
Hypothesis Harr : forall items, Forall P items -> P (JArr items).
Hypothesis Hobj : forall props, Forall (fun kv => P (snd kv)) props -> P (JObj props).

Fixpoint json_nested_ind (j : json) : P j :=
  match j with
  | JNull => Hnull
  | JBool b => Hbool b
  | JNum repr => Hnum repr
  | JStr s => Hstr s
  | JArr items =>
      Harr items
        ((fix all (l : list json) : Forall P l :=
            match l with
            | [] => Forall_nil P
            | x :: rest => Forall_cons x (json_nested_ind x) (all rest)
            end) items)
  | JObj props =>
      Hobj props
        ((fix all (l : list (string * json)) : Forall (fun kv => P (snd kv)) l :=
            match l with
            | [] => Forall_nil _
            | kv :: rest => Forall_cons kv (json_nested_ind (snd kv)) (all rest)
            end) props)
  end.

End NestedInduction.

(** String conversion raises one fault only. *)
Lemma to_string_json_throws (j : json) (e : exn) :
  to_string_json j = Throw e -> e = TypeError CannotConvertToPrimitive.
Proof.
  revert e. induction j as [| b | repr | s | items IH | props _] using json_nested_ind;
    intros e; simpl; try discriminate.
  - induction IH as [|x rest Hx _ IHrest]; [discriminate|].
    assert (Hhead : forall e',
               match x with JNull => Ok EmptyString | _ => to_string_json x end = Throw e' ->
               e' = TypeError CannotConvertToPrimitive).
    { intros e' H. destruct x; try discriminate H; now apply Hx. }
    destruct (match x with JNull => Ok EmptyString | _ => to_string_json x end) as [sx|ex].
    + rewrite bind_ok. destruct rest as [|y rest']; [discriminate|].
      match goal with
      | |- bind ?c _ = _ -> _ => destruct c as [sr|er] eqn:Hr
      end.
      * discriminate.
      * intros H. injection H as <-. now apply IHrest.
    + intros H. injection H as <-. now apply Hhead.
  - destruct (has_own "toString" props); [|discriminate].
    intros H. now injection H as <-.
Qed.

Lemma to_string_throws (v : value) (e : exn) :
  to_string v = Throw e -> e = TypeError CannotConvertToPrimitive.
Proof. destruct v; [apply to_string_json_throws | discriminate]. Qed.

Lemma part_step_throws (content : string) (part : json) (e : exn) :
  part_step content part = Throw e ->
  e = TypeError (CannotReadNull "type") \/ e = TypeError CannotConvertToPrimitive.
Proof.
  unfold part_step. destruct (is_null part) eqn:Hn.
  - destruct part; try discriminate. simpl. intros H. injection H as <-. now left.
  - apply is_null_false in Hn. reads Hn.
    destruct (strict_eq (own part "type") "output_text"); [|discriminate].
    reads Hn. destruct (to_string (own part "text")) eqn:Hs; [discriminate|].
    simpl. intros H. injection H as <-. right. now apply to_string_throws in Hs.
Qed.

Lemma forEach_throws {S : Type} (f : S -> json -> outcome S) (Q : exn -> Prop) :
  (forall s x e, f s x = Throw e -> Q e) ->
  forall items s e, forEach f items s = Throw e -> Q e.
Proof.
  intros Hf. induction items as [|x rest IH]; intros s e; simpl; [discriminate|].
  destruct (f s x) as [s'|e'] eqn:Hx; simpl.
  - apply IH.
  - intros H. injection H as <-. eapply Hf, Hx.
Qed.

Lemma item_step_throws (st : string * value) (item : json) (e : exn) :
  item_step st item = Throw e ->
  e = TypeError (CannotReadNull "type") \/ e = TypeError CannotConvertToPrimitive.
Proof.
  destruct st as [content reasoning]. unfold item_step.
  destruct (is_null item) eqn:Hn.
  - destruct item; try discriminate. simpl. intros H. injection H as <-. now left.
  - apply is_null_false in Hn. reads Hn.
    destruct (strict_eq (own item "type") "message").
    + destruct (own item "content") as [[| b | r | s | parts | props]|];
        simpl truthy; simpl isArray; simpl typeof_string; cbv iota;
        try (repeat case_if; reads Hn; repeat case_if; reads Hn; discriminate).
      destruct (forEach part_step parts content) as [c'|e'] eqn:Hp.
      * reads Hn. case_if; reads Hn; discriminate.
      * simpl. intros H. injection H as <-.
        exact (forEach_throws part_step _ part_step_throws _ _ _ Hp).
    + reads Hn. case_if; reads Hn; discriminate.
Qed.

Lemma normalize_throws (data : json) (e : exn) :
  Normalizer.normalize data = Throw e ->
  (data = JNull /\ e = TypeError (CannotReadNull "output"))
  \/ (isArray (own data "output") = true
      /\ (e = TypeError (CannotReadNull "type")
          \/ e = TypeError CannotConvertToPrimitive)).
Proof.
  destruct (is_null data) eqn:Hn.
  - destruct data; try discriminate. simpl. intros H. injection H as <-. now left.
  - apply is_null_false in Hn. rewrite (normalize_view _ Hn).
    destruct (own data "output") as [[| b | r | s | items | props]|];
      try (repeat case_if; discriminate).
    destruct (forEach item_step items (EmptyString, null)) as [st|e'] eqn:Hf;
      [discriminate|].
    simpl. intros H. injection H as <-. right. split; [reflexivity|].
    exact (forEach_throws item_step _ item_step_throws _ _ _ Hf).
Qed.


End NormalizerFacts.

(* ===================================================================== *)
(** ** The normaliser against its documentation *)
(* ===================================================================== *)

Module NormalizerSpec.
Import JS Normalizer Spec JSFacts NormalizerFacts.

Lemma diagnostic_not_empty (data : json) : diagnostic data <> EmptyString.
Proof. unfold diagnostic, diagnostic_prefix. simpl. discriminate. Qed.


(** C1, as the code has it.  The normaliser returns exactly on the bodies
    singled out by [returns]: not null and, when the output field is a
    sequence, without a null item, a null part of a message, or an
    output_text text that has no string conversion; on any other body it
    raises, and what it raises is a type error.  When it returns through
    the output sequence or through the fallback the content is a string.
    On a body on which none of the three tests of lines 97, 117 and 120
    succeeds (the output field is not a sequence, there is no truthy first
    choice message, and output_text is not truthy) the result is the
    diagnostic text around the pretty-printed body, which is not empty,
    with reasoning null. *)
Theorem normalize_returns (data : json) :
  is_ok (Normalizer.normalize data) = returns data
  /\ (returns data = false ->
      exists f, Normalizer.normalize data = Throw (TypeError f))
  /\ (returns data = true ->
      exists r,
        Normalizer.normalize data = Ok r
        /\ (isArray (own data "output") = true \/ unrecognised data = true ->
            is_string (content r) = true)
        /\ (unrecognised data = true ->
            r = Result (Some (JStr (diagnostic data))) null
            /\ diagnostic data <> EmptyString
            /\ exists before after, diagnostic data = before ++ stringify data ++ after)).
Proof.
  split; [apply normalize_is_ok|]. split.
  { intros Hr. pose proof (normalize_is_ok data) as Hk. rewrite Hr in Hk.
    destruct (Normalizer.normalize data) as [r|e] eqn:He; [discriminate|].
    destruct (normalize_throws _ _ He) as [[_ ->] | [_ [-> | ->]]];
      eexists; reflexivity. }
  intros Hr. unfold returns in Hr. apply andb_prop in Hr as [Hn Hitems].
  apply negb_true_iff, is_null_false in Hn.
  destruct (unrecognised data) eqn:Hu.
  - exists (Result (Some (JStr (diagnostic data))) null).
    split; [now apply normalize_unrecognised|].
    split; [reflexivity|].
    intros _. split; [reflexivity|]. split; [apply diagnostic_not_empty|].
    exists diagnostic_prefix, diagnostic_suffix. reflexivity.
  - destruct (own data "output") as [[| b | r | s | items | props]|] eqn:Ho;
      try (pose proof (normalize_is_ok data) as Hk; unfold returns in Hk;
           rewrite Ho in Hk;
           replace (is_null data) with false in Hk
             by (destruct data; try reflexivity; now elim Hn);
           simpl in Hk;
           destruct (Normalizer.normalize data) as [r'|]; [|discriminate];
           exists r'; split; [reflexivity|];
           split; [intros [H|H]; discriminate | intros H; discriminate]).
    exists (Result (Some (JStr (output_content items))) (output_reasoning items)).
    split; [now apply normalize_output|].
    split; [reflexivity | intros H; discriminate].
Qed.

(** The sample body { foo: bar } passes none of the three tests: the
    normaliser returns the diagnostic text.  A null item makes it raise a
    type error. *)
Lemma normalize_returns_foo_bar :
  (returns Samples.foo_bar = true
   /\ unrecognised Samples.foo_bar = true
   /\ Normalizer.normalize Samples.foo_bar
      = Ok (Result (Some (JStr (diagnostic Samples.foo_bar))) null))
  /\ (returns Samples.null_item = false
      /\ exists f, Normalizer.normalize Samples.null_item = Throw (TypeError f)).
Proof.
  split.
  - split; [reflexivity|]. split; [reflexivity|].
    destruct (proj2 (proj2 (normalize_returns Samples.foo_bar)) eq_refl)
      as (r & Hr & _ & Hd).
    destruct (Hd eq_refl) as (-> & _). exact Hr.
  - split; [reflexivity|].
    exact (proj1 (proj2 (normalize_returns Samples.null_item)) eq_refl).
Defined.

(** C1, as stated, fails on the body null: reading its output field raises. *)
Lemma normalize_null_raises :
  Normalizer.normalize JNull = Throw (TypeError (CannotReadNull "output")).
Proof. reflexivity. Qed.

(** The diagnostic text for { foo: bar }, spelled out. *)
Example diagnostic_foo_bar :
  diagnostic Samples.foo_bar
  = "Could not parse standard response format. Raw Output:" ++ nl
    ++ "```json" ++ nl
    ++ "{" ++ nl
    ++ "  " ++ dq ++ "foo" ++ dq ++ ": " ++ dq ++ "bar" ++ dq ++ nl
    ++ "}" ++ nl
    ++ "```".
Proof. reflexivity. Qed.

(** C3, as the code has it.  On a body whose output field is a sequence
    the iteration gets through (no null item, no null part, every
    output_text text convertible), the content is the concatenation, in
    order, of what each message item contributes: the texts of the
    output_text parts of a content sequence, or a string content itself;
    the reasoning is the summary of the last reasoning item, null when
    there is none.  On any other output sequence the normaliser produces
    no result: it raises a type error, for reading the type of a null item
    or part, or for a text without string conversion. *)
Theorem output_sequence_extraction (data : json) (items : list json) :
  own data "output" = Some (JArr items) ->
  (forallb item_ok items = true ->
   Normalizer.normalize data
   = Ok (Result (Some (JStr (output_content items))) (output_reasoning items)))
  /\ (forallb item_ok items = false ->
      exists f,
        Normalizer.normalize data = Throw (TypeError f)
        /\ (f = CannotReadNull "type" \/ f = CannotConvertToPrimitive)).
Proof.
  intros Ho. split; [now apply normalize_output|].
  intros Hbad.
  assert (Hn : is_null data = false) by (destruct data; try reflexivity; discriminate).
  pose proof (normalize_is_ok data) as Hk.
  unfold returns in Hk. rewrite Hn, Ho, Hbad in Hk. simpl in Hk.
  destruct (Normalizer.normalize data) as [r|e] eqn:He; [discriminate|].
  destruct (normalize_throws _ _ He) as [[-> _] | [_ [-> | ->]]].
  - discriminate.
  - eexists. split; [reflexivity | now left].
  - eexists. split; [reflexivity | now right].
Qed.

(** One message item with the parts Hello, and world.; and a sequence with
    a null item. *)
Lemma output_sequence_extraction_hello :
  Normalizer.normalize Samples.hello = Ok (Result (Some (JStr "Hello, world.")) null)
  /\ exists f,
      Normalizer.normalize Samples.null_item = Throw (TypeError f)
      /\ (f = CannotReadNull "type" \/ f = CannotConvertToPrimitive).
Proof.
  split.
  - exact (proj1 (output_sequence_extraction Samples.hello _ eq_refl) eq_refl).
  - exact (proj2 (output_sequence_extraction Samples.null_item _ eq_refl) eq_refl).
Defined.

(** The last of two reasoning items wins. *)
Example last_reasoning_wins :
  Normalizer.normalize Samples.two_reasonings
  = Ok (Result (Some (JStr "Done.")) (Some (JStr "second"))).
Proof. reflexivity. Qed.

(** C3, as stated, fails when an item is null: the documented rule skips
    it and keeps the content of the message before it, the code raises. *)
Lemma null_item_raises :
  Normalizer.normalize Samples.null_item = Throw (TypeError (CannotReadNull "type"))
  /\ Spec.documented Samples.null_item = Result (Some (JStr "Hi")) null.
Proof. split; reflexivity. Qed.




End NormalizerSpec.

(* ===================================================================== *)
(** ** Facts about the handler *)
(* ===================================================================== *)

Module HandlerFacts.
Import JS Normalizer Handler Spec JSFacts.

Lemma nonempty_true (s : string) : nonempty s = true <-> s <> EmptyString.
Proof.
  unfold nonempty. rewrite negb_true_iff. apply String.eqb_neq.
Qed.

Lemma nonempty_false (s : string) : nonempty s = false <-> s = EmptyString.
Proof.
  unfold nonempty. rewrite negb_false_iff. apply String.eqb_eq.
Qed.

Lemma get_opt_field (v : value) (name : string) : get_opt v name = Ok (field v name).
Proof. destruct v as [[]|]; reflexivity. Qed.

Lemma fetches_app (a b : list effect) :
  fetches (a ++ b) = (fetches a ++ fetches b)%list.
Proof.
  induction a as [|e a IH]; simpl; [reflexivity|].
  destruct e; simpl; now rewrite IH.
Qed.

Section WithPlatform.

Variable hostname : string -> option string.
Variable fault_message : fault -> string.

#[local] Abbreviation handleSearch := (Handler.handleSearch hostname fault_message).
#[local] Abbreviation build := (Handler.build hostname).
#[local] Abbreviation settle := (Handler.settle fault_message).
#[local] Abbreviation message_of := (Handler.message_of fault_message).

Lemma fetches_settle (o : outcome Normalizer.result) : fetches (settle o) = [].
Proof. destruct o; reflexivity. Qed.

(** The trace of a submission that passes both guards. *)
Lemma handleSearch_passes (apiKey companyName companyUrl : string)
  (transport : Request.request -> Transport.fetched) :
  passes_validation apiKey companyName companyUrl = true ->
  handleSearch apiKey companyName companyUrl transport
  = ([SetLoading true; SetError None; SetResult None;
      Fetch (request_of apiKey (build companyName companyUrl))]
       ++ settle (respond (transport (request_of apiKey (build companyName companyUrl))))
       ++ [SetLoading false])%list.
Proof.
  unfold passes_validation, Handler.handleSearch. intros H.
  apply andb_prop in H as [Hk Ht]. rewrite Hk. simpl negb. cbv iota.
  destruct (nonempty companyName), (nonempty companyUrl); try discriminate; reflexivity.
Qed.

(** The trace of a submission that is turned away. *)
Lemma handleSearch_rejects (apiKey companyName companyUrl : string)
  (transport : Request.request -> Transport.fetched) :
  passes_validation apiKey companyName companyUrl = false ->
  handleSearch apiKey companyName companyUrl transport
  = [SetError (Some (if nonempty apiKey then missing_target else missing_key))].
Proof.
  unfold passes_validation, Handler.handleSearch. intros H.
  destruct (nonempty apiKey); simpl in *; [|reflexivity].
  destruct (nonempty companyName), (nonempty companyUrl); try discriminate; reflexivity.
Qed.

Lemma fetches_passes (apiKey companyName companyUrl : string)
  (transport : Request.request -> Transport.fetched) :
  passes_validation apiKey companyName companyUrl = true ->
  fetches (handleSearch apiKey companyName companyUrl transport)
  = [request_of apiKey (build companyName companyUrl)].
Proof.
  intros H. rewrite (handleSearch_passes _ _ _ _ H).
  rewrite !fetches_app, fetches_settle. reflexivity.
Qed.

(** The state a submission that passes the guards ends in. *)
Lemma run_passes (apiKey companyName companyUrl : string)
  (transport : Request.request -> Transport.fetched) (st : state) :
  passes_validation apiKey companyName companyUrl = true ->
  run st (handleSearch apiKey companyName companyUrl transport)
  = match respond (transport (request_of apiKey (build companyName companyUrl))) with
    | Ok r => State false (Some r) None
    | Throw e => State false None (Some (message_of e))
    end.
Proof.
  intros H. rewrite (handleSearch_passes _ _ _ _ H).
  destruct (respond _); reflexivity.
Qed.

(** What lines 86-89 throw for a response whose status is not a success. *)
Lemma respond_not_ok (r : Transport.response) :
  Transport.ok r = false ->
  respond (Transport.Resolved r)
  = match Transport.body_json r with
    | Transport.Undecodable m => Throw (Rejection m)
    | Transport.Decoded JNull => Throw (TypeError (CannotReadNull "error"))
    | Transport.Decoded data =>
        let m := field (own data "error") "message" in
        bind (to_string (if truthy m then m else Some (JStr (Transport.statusText r))))
             (fun msg => Throw (Error msg))
    end.
Proof.
  intros Hok. unfold respond, decode. rewrite bind_ok, Hok. simpl negb. cbv iota.
  destruct (Transport.body_json r) as [data|m]; [|reflexivity].
  rewrite bind_ok.
  destruct data; try reflexivity;
    simpl get; rewrite bind_ok, get_opt_field, bind_ok; reflexivity.
Qed.

End WithPlatform.

End HandlerFacts.

(* ===================================================================== *)
(** ** The handler against its documentation *)
(* ===================================================================== *)

Module HandlerSpec.
Import JS Normalizer Handler Spec JSFacts HandlerFacts.

Section WithPlatform.

Variable hostname : string -> option string.
Variable fault_message : fault -> string.

#[local] Abbreviation handleSearch := (Handler.handleSearch hostname fault_message).
#[local] Abbreviation build := (Handler.build hostname).

(** C5.  The guards come first and in order.  Without a credential the
    handler does one thing, whatever the other inputs: it sets the error to
    the missing-key message.  With a credential and both inputs empty it
    does one thing: it sets the error to the missing-target message.  In
    both cases nothing is fetched, and loading and result are left as they
    were. *)
Theorem validation_guards (apiKey companyName companyUrl : string)
  (transport : Request.request -> Transport.fetched) (st : state) :
  (apiKey = EmptyString ->
   handleSearch apiKey companyName companyUrl transport
   = [SetError (Some "API Key not found in environment.")]
   /\ run st (handleSearch apiKey companyName companyUrl transport)
      = State (loading st) (result st) (Some "API Key not found in environment.")
   /\ fetches (handleSearch apiKey companyName companyUrl transport) = [])
  /\ (apiKey <> EmptyString -> companyName = EmptyString -> companyUrl = EmptyString ->
      handleSearch apiKey companyName companyUrl transport
      = [SetError (Some "Please provide a company name or URL.")]
      /\ run st (handleSearch apiKey companyName companyUrl transport)
         = State (loading st) (result st) (Some "Please provide a company name or URL.")
      /\ fetches (handleSearch apiKey companyName companyUrl transport) = []).
Proof.
  split.
  - intros ->. repeat split.
  - intros Hk -> ->. apply nonempty_true in Hk.
    rewrite handleSearch_rejects by (unfold passes_validation; now rewrite Hk).
    rewrite Hk. repeat split.
Qed.

(** C4, as the code has it.  The missing-target failure is the outcome
    exactly when the credential is present and both inputs are empty; with
    a credential and both inputs filled in, the submission goes through and
    one request is sent. *)
Theorem missing_target_only_when_both_empty (apiKey companyName companyUrl : string)
  (transport : Request.request -> Transport.fetched) :
  (handleSearch apiKey companyName companyUrl transport
   = [SetError (Some "Please provide a company name or URL.")]
   <-> apiKey <> EmptyString /\ companyName = EmptyString /\ companyUrl = EmptyString)
  /\ (apiKey <> EmptyString -> companyName <> EmptyString -> companyUrl <> EmptyString ->
      fetches (handleSearch apiKey companyName companyUrl transport)
      = [request_of apiKey (build companyName companyUrl)]).
Proof.
  split.
  - destruct (passes_validation apiKey companyName companyUrl) eqn:Hv.
    + rewrite (handleSearch_passes _ _ _ _ _ _ Hv). split; [discriminate|].
      intros (Hk & -> & ->). apply nonempty_true in Hk.
      unfold passes_validation in Hv. rewrite Hk in Hv. discriminate.
    + rewrite (handleSearch_rejects _ _ _ _ _ _ Hv).
      unfold passes_validation in Hv.
      destruct (nonempty apiKey) eqn:Hk.
      * simpl in Hv. apply orb_false_elim in Hv as [Hn Hu].
        apply nonempty_false in Hn, Hu. apply nonempty_true in Hk.
        split; [now intros _ | reflexivity].
      * apply nonempty_false in Hk. split; [discriminate|].
        intros (Hk' & _). now elim Hk'.
  - intros Hk Hn Hu. apply fetches_passes.
    apply nonempty_true in Hk, Hn. unfold passes_validation. now rewrite Hk, Hn.
Qed.

(** C10.  With a URL given, the company name plays no part: the trace is
    that of the same submission without a name, and one request is sent,
    whose single tool is the web search restricted to the domain of the URL
    (its host name when it parses, the text as typed when not) and whose
    messages are the developer message for a URL and the user message made
    from the URL. *)
Theorem url_takes_precedence (apiKey companyName companyUrl : string)
  (transport : Request.request -> Transport.fetched) :
  apiKey <> EmptyString -> companyName <> EmptyString -> companyUrl <> EmptyString ->
  handleSearch apiKey companyName companyUrl transport
  = handleSearch apiKey EmptyString companyUrl transport
  /\ exists req,
      fetches (handleSearch apiKey companyName companyUrl transport) = [req]
      /\ Request.tools (Request.payload req)
         = [Request.Tool "web_search"
              (Some (Request.Filters
                       [match hostname companyUrl with
                        | Some host => host
                        | None => companyUrl
                        end]))]
      /\ Request.input (Request.payload req)
         = [Request.Message "developer" developer_url;
            Request.Message "user" ("Find pain points for " ++ companyUrl)].
Proof.
  intros Hk _ Hu. apply nonempty_true in Hk, Hu.
  assert (Hb : forall n, build n companyUrl = build EmptyString companyUrl)
    by (intros n; unfold Handler.build; now rewrite Hu).
  assert (Hv : forall n, passes_validation apiKey n companyUrl = true)
    by (intros n; unfold passes_validation; rewrite Hk, Hu; apply orb_true_r).
  split.
  - rewrite !handleSearch_passes by apply Hv. now rewrite Hb.
  - exists (request_of apiKey (build companyName companyUrl)).
    split; [apply fetches_passes, Hv|].
    unfold Handler.build. rewrite Hu. split; reflexivity.
Qed.

(** C6.  For a URL target, building the request always succeeds: the
    single tool is a web search restricted to the host name of the URL when
    the URL parses, and to the text as typed when it does not; the user
    message carries the text as typed; and with a credential this is the
    one request sent. *)
Theorem url_request (companyName companyUrl : string) :
  companyUrl <> EmptyString ->
  (forall host, hostname companyUrl = Some host ->
     fst (build companyName companyUrl)
     = [Request.Tool "web_search" (Some (Request.Filters [host]))])
  /\ (hostname companyUrl = None ->
      fst (build companyName companyUrl)
      = [Request.Tool "web_search" (Some (Request.Filters [companyUrl]))])
  /\ snd (build companyName companyUrl)
     = [Request.Message "developer" developer_url;
        Request.Message "user" ("Find pain points for " ++ companyUrl)]
  /\ (forall apiKey transport, apiKey <> EmptyString ->
      exists req,
        fetches (handleSearch apiKey companyName companyUrl transport) = [req]
        /\ Request.tools (Request.payload req) = fst (build companyName companyUrl)
        /\ Request.input (Request.payload req) = snd (build companyName companyUrl)).
Proof.
  intros Hu. apply nonempty_true in Hu.
  split; [|split; [|split]].
  - intros host Hh. unfold Handler.build. now rewrite Hu, Hh.
  - intros Hh. unfold Handler.build. now rewrite Hu, Hh.
  - unfold Handler.build. now rewrite Hu.
  - intros apiKey transport Hk. apply nonempty_true in Hk.
    exists (request_of apiKey (build companyName companyUrl)).
    split; [|split; reflexivity].
    apply fetches_passes. unfold passes_validation. rewrite Hk, Hu. apply orb_true_r.
Qed.

(** C7.  For every target with a name or a URL the request built has two
    messages, a developer message then a user message, and one tool; for a
    name target the tool is an unrestricted web search and the user message
    is made from the name; and with a credential this is the one request
    sent. *)
Theorem request_shape (companyName companyUrl : string) :
  companyName <> EmptyString \/ companyUrl <> EmptyString ->
  map Request.role (snd (build companyName companyUrl)) = ["developer"; "user"]
  /\ List.length (fst (build companyName companyUrl)) = 1
  /\ (companyUrl = EmptyString ->
      build companyName companyUrl
      = ([Request.Tool "web_search" None],
         [Request.Message "developer" developer_name;
          Request.Message "user" ("Find pain points for company: " ++ companyName)]))
  /\ (forall apiKey transport, apiKey <> EmptyString ->
      exists req,
        fetches (handleSearch apiKey companyName companyUrl transport) = [req]
        /\ Request.tools (Request.payload req) = fst (build companyName companyUrl)
        /\ Request.input (Request.payload req) = snd (build companyName companyUrl)).
Proof.
  intros Ht.
  split; [|split; [|split]].
  - unfold Handler.build. destruct (nonempty companyUrl); reflexivity.
  - unfold Handler.build. destruct (nonempty companyUrl); reflexivity.
  - now intros ->.
  - intros apiKey transport Hk. apply nonempty_true in Hk.
    exists (request_of apiKey (build companyName companyUrl)).
    split; [|split; reflexivity].
    apply fetches_passes. unfold passes_validation. rewrite Hk. simpl.
    destruct Ht as [Hn|Hu].
    + apply nonempty_true in Hn. now rewrite Hn.
    + apply nonempty_true in Hu. rewrite Hu. apply orb_true_r.
Qed.

(** C8, as the code has it.  After a response whose status is not a
    success the submission ends failed: no result, not loading, and as
    error the text of a truthy error.message of the decoded body, else the
    status text; when the body does not decode, the message of that
    rejection; when it decodes to null, the message of the type error that
    reading its error field raises; and when a truthy error.message has no
    string conversion, the message of the type error raised for that. *)
Theorem failed_status_message (apiKey companyName companyUrl : string)
  (transport : Request.request -> Transport.fetched) (st : state)
  (r : Transport.response) :
  passes_validation apiKey companyName companyUrl = true ->
  transport (request_of apiKey (build companyName companyUrl)) = Transport.Resolved r ->
  Transport.ok r = false ->
  result (run st (handleSearch apiKey companyName companyUrl transport)) = None
  /\ loading (run st (handleSearch apiKey companyName companyUrl transport)) = false
  /\ (forall data text,
      Transport.body_json r = Transport.Decoded data -> data <> JNull ->
      truthy (field (own data "error") "message") = true ->
      to_string (field (own data "error") "message") = Ok text ->
      error (run st (handleSearch apiKey companyName companyUrl transport)) = Some text)
  /\ (forall data,
      Transport.body_json r = Transport.Decoded data -> data <> JNull ->
      truthy (field (own data "error") "message") = false ->
      error (run st (handleSearch apiKey companyName companyUrl transport))
      = Some (Transport.statusText r))
  /\ (forall message,
      Transport.body_json r = Transport.Undecodable message ->
      error (run st (handleSearch apiKey companyName companyUrl transport)) = Some message)
  /\ (Transport.body_json r = Transport.Decoded JNull ->
      error (run st (handleSearch apiKey companyName companyUrl transport))
      = Some (fault_message (CannotReadNull "error")))
  /\ (forall data e,
      Transport.body_json r = Transport.Decoded data -> data <> JNull ->
      truthy (field (own data "error") "message") = true ->
      to_string (field (own data "error") "message") = Throw e ->
      error (run st (handleSearch apiKey companyName companyUrl transport))
      = Some (Handler.message_of fault_message e)).
Proof.
  intros Hv Ht Hok.
  rewrite (run_passes _ _ _ _ _ _ _ Hv), Ht, (respond_not_ok _ Hok).
  split; [|split; [|split; [|split; [|split; [|split]]]]].
  - destruct (Transport.body_json r) as [[]|]; try reflexivity;
      cbv zeta; destruct (to_string _); reflexivity.
  - destruct (Transport.body_json r) as [[]|]; try reflexivity;
      cbv zeta; destruct (to_string _); reflexivity.
  - intros data text -> Hn Hm Hs.
    destruct data; try (now elim Hn); cbv zeta; rewrite Hm, Hs; reflexivity.
  - intros data -> Hn Hm.
    destruct data; try (now elim Hn); cbv zeta; rewrite Hm; reflexivity.
  - now intros message ->.
  - now intros ->.
  - intros data e -> Hn Hm Hs.
    destruct data; try (now elim Hn); cbv zeta; rewrite Hm, Hs; reflexivity.
Qed.

(** C9, as the code has it.  The resets come after the guards.  A
    submission that passes them clears error and result before the request
    goes out and ends not loading, with either a result and no error or an
    error and no result, whatever the state before.  A submission that is
    turned away only replaces the error: result and loading stay as they
    were. *)
Theorem resets_follow_validation (apiKey companyName companyUrl : string)
  (transport : Request.request -> Transport.fetched) (st : state) :
  (passes_validation apiKey companyName companyUrl = true ->
   (exists tail,
       handleSearch apiKey companyName companyUrl transport
       = ([SetLoading true; SetError None; SetResult None;
           Fetch (request_of apiKey (build companyName companyUrl))] ++ tail)%list
       /\ fetches tail = [])
   /\ ((exists r,
          run st (handleSearch apiKey companyName companyUrl transport)
          = State false (Some r) None)
       \/ (exists m,
          run st (handleSearch apiKey companyName companyUrl transport)
          = State false None (Some m))))
  /\ (passes_validation apiKey companyName companyUrl = false ->
      exists m,
        run st (handleSearch apiKey companyName companyUrl transport)
        = State (loading st) (result st) (Some m)).
Proof.
  split.
  - intros Hv. split.
    + rewrite (handleSearch_passes _ _ _ _ _ _ Hv). eexists. split; [reflexivity|].
      rewrite fetches_app, fetches_settle. reflexivity.
    + rewrite (run_passes _ _ _ _ _ _ _ Hv).
      destruct (respond _) as [r|e].
      * left. now exists r.
      * right. eexists. reflexivity.
  - intros Hv. rewrite (handleSearch_rejects _ _ _ _ _ _ Hv). eexists. reflexivity.
Qed.

End WithPlatform.

(** *** The theorems at sample submissions *)

#[local] Abbreviation sample_handleSearch :=
  (Handler.handleSearch Samples.hostname Samples.fault_message).

Lemma validation_guards_sample :
  (sample_handleSearch EmptyString "Tesla" EmptyString
     (Samples.answers true "OK" Samples.hello)
   = [SetError (Some "API Key not found in environment.")]
   /\ run Samples.succeeded
        (sample_handleSearch EmptyString "Tesla" EmptyString
           (Samples.answers true "OK" Samples.hello))
      = State (loading Samples.succeeded) (result Samples.succeeded)
          (Some "API Key not found in environment.")
   /\ fetches (sample_handleSearch EmptyString "Tesla" EmptyString
                 (Samples.answers true "OK" Samples.hello)) = [])
  /\ (sample_handleSearch "sk-test" EmptyString EmptyString
        (Samples.answers true "OK" Samples.hello)
      = [SetError (Some "Please provide a company name or URL.")]
      /\ run Samples.idle
           (sample_handleSearch "sk-test" EmptyString EmptyString
              (Samples.answers true "OK" Samples.hello))
         = State (loading Samples.idle) (result Samples.idle)
             (Some "Please provide a company name or URL.")
      /\ fetches (sample_handleSearch "sk-test" EmptyString EmptyString
                    (Samples.answers true "OK" Samples.hello)) = []).
Proof.
  split.
  - apply (proj1 (validation_guards Samples.hostname Samples.fault_message
                    EmptyString "Tesla" EmptyString _ Samples.succeeded)).
    reflexivity.
  - apply (proj2 (validation_guards Samples.hostname Samples.fault_message
                    "sk-test" EmptyString EmptyString _ Samples.idle));
      [discriminate | reflexivity | reflexivity].
Defined.

Lemma missing_target_only_when_both_empty_sample :
  fetches (sample_handleSearch "sk-test" "Tesla" "https://tesla.com"
             (Samples.answers true "OK" Samples.hello))
  = [request_of "sk-test" (Handler.build Samples.hostname "Tesla" "https://tesla.com")].
Proof.
  apply (proj2 (missing_target_only_when_both_empty Samples.hostname Samples.fault_message
                  "sk-test" "Tesla" "https://tesla.com" _)); discriminate.
Defined.

(** C4, as stated, fails: with a credential and both inputs filled in, the
    request is sent and the answer stored; no validation error is raised. *)
Lemma both_inputs_are_sent :
  List.length (fetches (sample_handleSearch "sk-test" "Tesla" "https://tesla.com"
                          (Samples.answers true "OK" Samples.hello))) = 1
  /\ run Samples.idle
       (sample_handleSearch "sk-test" "Tesla" "https://tesla.com"
          (Samples.answers true "OK" Samples.hello))
     = State false (Some (Result (Some (JStr "Hello, world.")) null)) None.
Proof. split; reflexivity. Qed.

Lemma url_takes_precedence_sample :
  sample_handleSearch "sk-test" "Tesla" "https://tesla.com"
    (Samples.answers true "OK" Samples.hello)
  = sample_handleSearch "sk-test" EmptyString "https://tesla.com"
      (Samples.answers true "OK" Samples.hello)
  /\ exists req,
      fetches (sample_handleSearch "sk-test" "Tesla" "https://tesla.com"
                 (Samples.answers true "OK" Samples.hello)) = [req]
      /\ Request.tools (Request.payload req)
         = [Request.Tool "web_search" (Some (Request.Filters ["tesla.com"]))]
      /\ Request.input (Request.payload req)
         = [Request.Message "developer" developer_url;
            Request.Message "user" "Find pain points for https://tesla.com"].
Proof.
  apply (url_takes_precedence Samples.hostname Samples.fault_message
           "sk-test" "Tesla" "https://tesla.com"); discriminate.
Defined.

(** A URL that parses, and the text not a url, which does not. *)
Lemma url_request_sample :
  (fst (Handler.build Samples.hostname EmptyString "https://tesla.com")
   = [Request.Tool "web_search" (Some (Request.Filters ["tesla.com"]))]
   /\ snd (Handler.build Samples.hostname EmptyString "https://tesla.com")
      = [Request.Message "developer" developer_url;
         Request.Message "user" "Find pain points for https://tesla.com"])
  /\ (fst (Handler.build Samples.hostname EmptyString "not a url")
      = [Request.Tool "web_search" (Some (Request.Filters ["not a url"]))]
      /\ snd (Handler.build Samples.hostname EmptyString "not a url")
         = [Request.Message "developer" developer_url;
            Request.Message "user" "Find pain points for not a url"]).
Proof.
  split.
  - destruct (url_request Samples.hostname Samples.fault_message
                EmptyString "https://tesla.com")
      as (Hh & _ & Hi & _); [discriminate|].
    split; [now apply Hh | exact Hi].
  - destruct (url_request Samples.hostname Samples.fault_message
                EmptyString "not a url")
      as (_ & Hn & Hi & _); [discriminate|].
    split; [now apply Hn | exact Hi].
Defined.

Lemma request_shape_sample :
  Handler.build Samples.hostname "Tesla" EmptyString
  = ([Request.Tool "web_search" None],
     [Request.Message "developer" developer_name;
      Request.Message "user" "Find pain points for company: Tesla"])
  /\ exists req,
      fetches (sample_handleSearch "sk-test" "Tesla" EmptyString
                 (Samples.answers true "OK" Samples.hello)) = [req]
      /\ Request.tools (Request.payload req)
         = fst (Handler.build Samples.hostname "Tesla" EmptyString)
      /\ Request.input (Request.payload req)
         = snd (Handler.build Samples.hostname "Tesla" EmptyString).
Proof.
  destruct (request_shape Samples.hostname Samples.fault_message "Tesla" EmptyString)
    as (_ & _ & Hn & Hs); [left; discriminate|].
  split; [now apply Hn|].
  apply Hs. discriminate.
Defined.

(** Status 401 with the body { error: { message: bad key } }. *)
Lemma failed_status_message_sample :
  error (run Samples.idle
           (sample_handleSearch "sk-test" "Tesla" EmptyString
              (Samples.answers false "Unauthorized" Samples.bad_key)))
  = Some "bad key".
Proof.
  refine (proj1 (proj2 (proj2
            (failed_status_message Samples.hostname Samples.fault_message
               "sk-test" "Tesla" EmptyString
               (Samples.answers false "Unauthorized" Samples.bad_key)
               Samples.idle _ eq_refl eq_refl eq_refl)))
            Samples.bad_key "bad key" eq_refl _ eq_refl eq_refl).
  discriminate.
Defined.

(** C8, as stated, fails on an error response whose body is null: the
    error shown is neither a message of the body nor the status text, but
    the message of the type error raised on line 88. *)
Lemma null_error_body :
  error (run Samples.idle
           (sample_handleSearch "sk-test" "Tesla" EmptyString
              (Samples.answers false "Internal Server Error" JNull)))
  = Some "Cannot read properties of null (reading 'error')".
Proof. reflexivity. Qed.

Lemma resets_follow_validation_sample :
  passes_validation "sk-test" "Tesla" EmptyString = true
  /\ ((exists r,
         run Samples.succeeded
           (sample_handleSearch "sk-test" "Tesla" EmptyString
              (Samples.answers false "Unauthorized" Samples.bad_key))
         = State false (Some r) None)
      \/ (exists m,
         run Samples.succeeded
           (sample_handleSearch "sk-test" "Tesla" EmptyString
              (Samples.answers false "Unauthorized" Samples.bad_key))
         = State false None (Some m))).
Proof.
  split; [reflexivity|].
  exact (proj2 (proj1 (resets_follow_validation Samples.hostname Samples.fault_message
                         "sk-test" "Tesla" EmptyString
                         (Samples.answers false "Unauthorized" Samples.bad_key)
                         Samples.succeeded) eq_refl)).
Defined.

(** C9, as stated, fails: a submission with both inputs empty, made while
    an earlier result is shown, leaves that result in place next to the
    new error. *)
Lemma stale_result_survives :
  run Samples.succeeded
    (sample_handleSearch "sk-test" EmptyString EmptyString
       (Samples.answers true "OK" Samples.hello))
  = State false (result Samples.succeeded) (Some "Please provide a company name or URL.")
  /\ result Samples.succeeded = Some (Result (Some (JStr "earlier analysis")) null).
Proof. split; reflexivity. Qed.

End HandlerSpec.

(* ===================================================================== *)
(** ** More about the normaliser *)
(* ===================================================================== *)

Module NormalizerMore.
Import JS Normalizer Spec JSFacts NormalizerFacts MoreSamples.

Lemma forEach_app {S : Type} (f : S -> json -> outcome S) (a b : list json) (s : S) :
  forEach f (a ++ b) s = bind (forEach f a s) (forEach f b).
Proof.
  revert s. induction a as [|x a IH]; intros s; simpl; [reflexivity|].
  destruct (f s x); simpl; [apply IH | reflexivity].
Qed.

Lemma concat_all_app (a b : list string) :
  concat_all (a ++ b) = concat_all a ++ concat_all b.
Proof.
  induction a as [|x a IH]; simpl; [reflexivity|].
  now rewrite IH, append_assoc.
Qed.

Lemma output_content_app (a b : list json) :
  output_content (a ++ b) = output_content a ++ output_content b.
Proof. unfold output_content. now rewrite filter_app, map_app, concat_all_app. Qed.

Lemma reasoning_from_app (init : value) (a b : list json) :
  reasoning_from init (a ++ b) = reasoning_from (reasoning_from init a) b.
Proof.
  revert init. induction a as [|x a IH]; intros init; [reflexivity|].
  simpl app. now rewrite !reasoning_from_cons, IH.
Qed.

Lemma reasoning_from_init (init init' : value) (items : list json) :
  reasoning_from init items
  = if existsb (is_kind "reasoning") items then reasoning_from init' items else init.
Proof.
  revert init init'. induction items as [|x rest IH]; intros init init'; [reflexivity|].
  rewrite !reasoning_from_cons. simpl existsb.
  destruct (is_kind "reasoning" x); simpl.
  - reflexivity.
  - apply IH.
Qed.

Lemma returns_output_body (items : list json) :
  returns (output_body items) = forallb item_ok items.
Proof. reflexivity. Qed.

Lemma normalize_output_body (items : list json) :
  forallb item_ok items = true ->
  Normalizer.normalize (output_body items)
  = Ok (Result (Some (JStr (output_content items))) (output_reasoning items)).
Proof. intros H. now apply normalize_output. Qed.

Lemma normalize_output_body_ok (items : list json) (r : result) :
  Normalizer.normalize (output_body items) = Ok r ->
  forallb item_ok items = true
  /\ r = Result (Some (JStr (output_content items))) (output_reasoning items).
Proof.
  intros H.
  assert (Hok : forallb item_ok items = true).
  { rewrite <- returns_output_body, <- normalize_is_ok, H. reflexivity. }
  split; [exact Hok|].
  rewrite (normalize_output_body _ Hok) in H. now injection H.
Qed.

(** *** What the normaliser raises, and where content and reasoning come from *)

(** X1.  The normaliser raises nothing but three type errors: reading output of
    a null body, reading type of a null item or part of an output
    sequence, and converting a text without string conversion. *)
Theorem normalize_raises_type_errors (data : json) (e : exn) :
  Normalizer.normalize data = Throw e ->
  (data = JNull /\ e = TypeError (CannotReadNull "output"))
  \/ (isArray (own data "output") = true
      /\ (e = TypeError (CannotReadNull "type")
          \/ e = TypeError CannotConvertToPrimitive)).
Proof. apply normalize_throws. Qed.

Lemma normalize_raises_type_errors_sample :
  Normalizer.normalize Samples.null_item = Throw (TypeError (CannotReadNull "type"))
  /\ ((Samples.null_item = JNull
       /\ TypeError (CannotReadNull "type") = TypeError (CannotReadNull "output"))
      \/ (isArray (own Samples.null_item "output") = true
          /\ (TypeError (CannotReadNull "type") = TypeError (CannotReadNull "type")
              \/ TypeError (CannotReadNull "type") = TypeError CannotConvertToPrimitive))).
Proof.
  split; [reflexivity|].
  exact (normalize_raises_type_errors Samples.null_item _ eq_refl).
Defined.

(** X2.  Only an output sequence sets the reasoning: on every body whose output
    field is not a sequence, a result has reasoning null. *)
Theorem reasoning_only_from_output (data : json) (r : result) :
  isArray (own data "output") = false ->
  Normalizer.normalize data = Ok r ->
  reasoning r = null.
Proof.
  intros Ha. destruct (is_null data) eqn:Hn.
  - destruct data; discriminate.
  - apply is_null_false in Hn. rewrite (normalize_view _ Hn).
    destruct (own data "output") as [[| b | rp | s | items | props]|];
      try discriminate Ha;
      repeat case_if; intros H; injection H as <-; reflexivity.
Qed.

Lemma reasoning_only_from_output_sample :
  isArray (own Samples.choices_x "output") = false
  /\ Normalizer.normalize Samples.choices_x = Ok (Result (Some (JStr "X")) null)
  /\ reasoning (Result (Some (JStr "X")) null) = null.
Proof.
  split; [reflexivity|]. split; [reflexivity|].
  exact (reasoning_only_from_output Samples.choices_x _ eq_refl eq_refl).
Defined.

(** X3.  The content of a result is undefined in one situation only: the body
    has no output sequence and its first choice has a truthy message
    without a content field. *)
Theorem content_undefined_iff (data : json) :
  (exists r, Normalizer.normalize data = Ok r /\ content r = undefined)
  <-> isArray (own data "output") = false
      /\ truthy (choices_message data) = true
      /\ field (choices_message data) "content" = undefined.
Proof.
  destruct (is_null data) eqn:Hn.
  - destruct data; try discriminate. split.
    + intros (r & H & _). discriminate.
    + intros (_ & H & _). discriminate.
  - apply is_null_false in Hn. rewrite (normalize_view _ Hn). split.
    + intros (r & H & Hc).
      destruct (own data "output") as [[| b | rp | s | items | props]|];
        try (destruct (forEach item_step items (EmptyString, null));
             [injection H as <-; discriminate | discriminate]);
        (destruct (truthy (choices_message data));
         [ injection H as <-; repeat split; exact Hc
         | destruct (truthy (own data "output_text")) eqn:Ht;
           injection H as <-; simpl in Hc;
           [ rewrite Hc in Ht; discriminate | discriminate ] ]).
    + intros (Ha & Ht & Hc). rewrite Ht, Hc.
      exists (Result undefined null).
      destruct (own data "output") as [[| b | rp | s | items | props]|];
        try discriminate Ha; split; reflexivity.
Qed.

(** *** Output sequences *)

(** X4.  Output sequences compose: when two sequences are normalised without
    raising, so is their concatenation; its content is the concatenation of
    the two contents, and its reasoning is that of the second sequence when
    the second has a reasoning item, else that of the first. *)
Theorem output_sequences_compose (a b : list json) (ra rb : result) :
  Normalizer.normalize (output_body a) = Ok ra ->
  Normalizer.normalize (output_body b) = Ok rb ->
  exists ca cb,
    content ra = Some (JStr ca) /\ content rb = Some (JStr cb)
    /\ Normalizer.normalize (output_body (a ++ b))
       = Ok (Result (Some (JStr (ca ++ cb)))
               (if existsb (is_kind "reasoning") b then reasoning rb else reasoning ra)).
Proof.
  intros Ha Hb.
  apply normalize_output_body_ok in Ha as [Hoka ->].
  apply normalize_output_body_ok in Hb as [Hokb ->].
  exists (output_content a), (output_content b).
  split; [reflexivity|]. split; [reflexivity|].
  rewrite normalize_output_body by (rewrite forallb_app, Hoka, Hokb; reflexivity).
  rewrite output_content_app. unfold output_reasoning. rewrite reasoning_from_app.
  simpl reasoning.
  now rewrite (reasoning_from_init (reasoning_from null a) null b).
Qed.

Lemma output_sequences_compose_sample :
  exists ca cb,
    Some (JStr "Hello, ") = Some (JStr ca) /\ Some (JStr "world.") = Some (JStr cb)
    /\ Normalizer.normalize
         (output_body ([reasoning_item "first"; message_item "Hello, "]
                         ++ [message_item "world."]))
       = Ok (Result (Some (JStr (ca ++ cb))) (Some (JStr "first"))).
Proof.
  exact (output_sequences_compose
           [reasoning_item "first"; message_item "Hello, "] [message_item "world."]
           _ _ eq_refl eq_refl).
Defined.

(** X5.  The iteration stops at the first item it cannot get through: when a
    sequence makes the normaliser raise, every extension of it raises the
    same error, whatever follows. *)
Theorem output_sequence_raises_first (a b : list json) (e : exn) :
  Normalizer.normalize (output_body a) = Throw e ->
  Normalizer.normalize (output_body (a ++ b)) = Throw e.
Proof.
  unfold Normalizer.normalize, output_body. simpl get. rewrite !bind_ok. simpl.
  rewrite forEach_app.
  destruct (forEach item_step a (EmptyString, null)); [discriminate|].
  intros H. exact H.
Qed.

Lemma output_sequence_raises_first_sample :
  Normalizer.normalize (output_body ([message_item "Hi"; JNull] ++ [message_item "there"]))
  = Throw (TypeError (CannotReadNull "type")).
Proof.
  exact (output_sequence_raises_first [message_item "Hi"; JNull] [message_item "there"]
           _ eq_refl).
Defined.

Lemma filter_kind_relevant (kind : string) (items : list json) :
  (forall item, is_kind kind item = true -> relevant item = true) ->
  filter (is_kind kind) (filter relevant items) = filter (is_kind kind) items.
Proof.
  intros Hk. induction items as [|x rest IH]; [reflexivity|].
  simpl. destruct (relevant x) eqn:Hr; simpl.
  - now rewrite IH.
  - destruct (is_kind kind x) eqn:Hx; [|exact IH].
    rewrite (Hk _ Hx) in Hr. discriminate.
Qed.

Lemma forallb_filter_ok {A : Type} (p q : A -> bool) (l : list A) :
  forallb p l = true -> forallb p (filter q l) = true.
Proof.
  induction l as [|x rest IH]; [reflexivity|]. simpl.
  intros H. apply andb_prop in H as [Hx Hrest].
  destruct (q x); simpl; [rewrite Hx|]; now apply IH.
Qed.

(** X6.  Items of other kinds are passed over: on a sequence the iteration gets
    through, dropping every item that is neither a message nor a reasoning
    (tool calls, numbers, strings, nested arrays) changes nothing. *)
Theorem other_items_are_skipped (items : list json) :
  forallb item_ok items = true ->
  Normalizer.normalize (output_body items)
  = Normalizer.normalize (output_body (filter relevant items)).
Proof.
  intros Hok.
  rewrite !normalize_output_body by (try apply forallb_filter_ok; exact Hok).
  unfold output_content, output_reasoning, reasoning_from.
  rewrite !filter_kind_relevant; [reflexivity | |];
    intros item H; unfold relevant; rewrite H; [apply orb_true_r | reflexivity].
Qed.

Lemma other_items_are_skipped_sample :
  Normalizer.normalize
    (output_body [web_search_call; message_item "Hi"; JNum "7"; reasoning_item "why"])
  = Normalizer.normalize (output_body [message_item "Hi"; reasoning_item "why"]).
Proof.
  exact (other_items_are_skipped
           [web_search_call; message_item "Hi"; JNum "7"; reasoning_item "why"] eq_refl).
Defined.

(** X7.  An output sequence without a message item, the empty sequence
    included, gives the empty string as content, not the diagnostic. *)
Theorem no_message_no_content (data : json) (items : list json) :
  own data "output" = Some (JArr items) ->
  forallb item_ok items = true ->
  existsb (is_kind "message") items = false ->
  Normalizer.normalize data = Ok (Result (Some (JStr EmptyString)) (output_reasoning items)).
Proof.
  intros Ho Hok Hm. rewrite (normalize_output _ _ Ho Hok).
  unfold output_content.
  replace (filter (is_kind "message") items) with (@nil json); [reflexivity|].
  clear Ho Hok. induction items as [|x rest IH]; [reflexivity|].
  simpl in *. apply orb_false_elim in Hm as [Hx Hrest]. rewrite Hx. now apply IH.
Qed.

Lemma no_message_no_content_sample :
  Normalizer.normalize (output_body [reasoning_item "why"; web_search_call])
  = Ok (Result (Some (JStr EmptyString)) (Some (JStr "why"))).
Proof.
  exact (no_message_no_content
           (output_body [reasoning_item "why"; web_search_call])
           [reasoning_item "why"; web_search_call] eq_refl eq_refl eq_refl).
Defined.

End NormalizerMore.

(* ===================================================================== *)
(** ** More about the handler *)
(* ===================================================================== *)

Module HandlerMore.
Import JS Normalizer Handler Spec JSFacts HandlerFacts NormalizerFacts.

Section WithPlatform.

Variable hostname : string -> option string.
Variable fault_message : fault -> string.

#[local] Abbreviation handleSearch := (Handler.handleSearch hostname fault_message).
#[local] Abbreviation build := (Handler.build hostname).

Lemma passes_validation_iff (apiKey companyName companyUrl : string) :
  passes_validation apiKey companyName companyUrl = true
  <-> apiKey <> EmptyString /\ (companyName <> EmptyString \/ companyUrl <> EmptyString).
Proof.
  unfold passes_validation.
  rewrite andb_true_iff, orb_true_iff, !nonempty_true. reflexivity.
Qed.

(** X8.  A submission sends one request or none, never more: one exactly when
    there is a credential and a name or a URL.  The request is a POST to
    the responses endpoint with a JSON content type, the credential as
    bearer token, and the model gpt-5-nano. *)
Theorem one_request_at_most (apiKey companyName companyUrl : string)
  (transport : Request.request -> Transport.fetched) :
  List.length (fetches (handleSearch apiKey companyName companyUrl transport)) <= 1
  /\ (List.length (fetches (handleSearch apiKey companyName companyUrl transport)) = 1
      <-> apiKey <> EmptyString
          /\ (companyName <> EmptyString \/ companyUrl <> EmptyString))
  /\ (forall req,
        In req (fetches (handleSearch apiKey companyName companyUrl transport)) ->
        Request.url req = "https://api.openai.com/v1/responses"
        /\ Request.method req = "POST"
        /\ Request.headers req
           = [("Content-Type", "application/json");
              ("Authorization", "Bearer " ++ apiKey)]
        /\ Request.model (Request.payload req) = "gpt-5-nano").
Proof.
  rewrite <- passes_validation_iff.
  destruct (passes_validation apiKey companyName companyUrl) eqn:Hv.
  - rewrite (fetches_passes _ _ _ _ _ _ Hv). simpl.
    split; [lia|]. split; [tauto|].
    intros req [<-|[]]. repeat split.
  - rewrite (handleSearch_rejects _ _ _ _ _ _ Hv). simpl.
    split; [lia|]. split; [split; discriminate|].
    intros req [].
Qed.

(** X9.  When the transport itself fails, the submission ends failed with the
    message of that failure: no result, not loading. *)
Theorem transport_rejection (apiKey companyName companyUrl : string)
  (transport : Request.request -> Transport.fetched) (st : state) (message : string) :
  apiKey <> EmptyString ->
  companyName <> EmptyString \/ companyUrl <> EmptyString ->
  transport (request_of apiKey (build companyName companyUrl))
  = Transport.Rejected message ->
  run st (handleSearch apiKey companyName companyUrl transport)
  = State false None (Some message).
Proof.
  intros Hk Ht Hr.
  assert (Hv : passes_validation apiKey companyName companyUrl = true)
    by (apply passes_validation_iff; tauto).
  rewrite (run_passes _ _ _ _ _ _ _ Hv), Hr. reflexivity.
Qed.

(** X10.  After a success status the stored result is what the normaliser makes
    of the decoded body, with no error, whenever the normaliser returns;
    when it raises, or when the body does not decode, the submission ends
    failed with the message of that error and no result. *)
Theorem success_status (apiKey companyName companyUrl : string)
  (transport : Request.request -> Transport.fetched) (st : state)
  (r : Transport.response) :
  apiKey <> EmptyString ->
  companyName <> EmptyString \/ companyUrl <> EmptyString ->
  transport (request_of apiKey (build companyName companyUrl)) = Transport.Resolved r ->
  Transport.ok r = true ->
  (forall data, Transport.body_json r = Transport.Decoded data -> returns data = true ->
     exists res,
       Normalizer.normalize data = Ok res
       /\ run st (handleSearch apiKey companyName companyUrl transport)
          = State false (Some res) None)
  /\ (forall data, Transport.body_json r = Transport.Decoded data -> returns data = false ->
     exists f,
       Normalizer.normalize data = Throw (TypeError f)
       /\ run st (handleSearch apiKey companyName companyUrl transport)
          = State false None (Some (fault_message f)))
  /\ (forall message, Transport.body_json r = Transport.Undecodable message ->
     run st (handleSearch apiKey companyName companyUrl transport)
     = State false None (Some message)).
Proof.
  intros Hk Ht Hr Hok.
  assert (Hv : passes_validation apiKey companyName companyUrl = true)
    by (apply passes_validation_iff; tauto).
  rewrite (run_passes _ _ _ _ _ _ _ Hv), Hr.
  unfold respond, decode. rewrite bind_ok, Hok. simpl negb. cbv iota.
  split; [|split].
  - intros data -> Hd. rewrite bind_ok.
    pose proof (normalize_is_ok data) as Hn. rewrite Hd in Hn.
    destruct (Normalizer.normalize data) as [res|e]; [|discriminate].
    now exists res.
  - intros data -> Hd. rewrite bind_ok.
    pose proof (normalize_is_ok data) as Hn. rewrite Hd in Hn.
    destruct (Normalizer.normalize data) as [res|e] eqn:He; [discriminate|].
    destruct (normalize_throws _ _ He)
      as [[_ ->] | [_ [-> | ->]]]; eexists; split; reflexivity.
  - now intros message ->.
Qed.

(** X11.  A failure can leave nothing to see.  When a response without success
    status has an empty status text and a body, not null, without a truthy
    error.message, the error stored is the empty string: the rendered form
    shows no error banner and no result, and is enabled again. *)
Theorem silent_failure (apiKey companyName companyUrl : string)
  (transport : Request.request -> Transport.fetched) (st : state)
  (r : Transport.response) (data : json) :
  apiKey <> EmptyString ->
  companyName <> EmptyString \/ companyUrl <> EmptyString ->
  transport (request_of apiKey (build companyName companyUrl)) = Transport.Resolved r ->
  Transport.ok r = false ->
  Transport.statusText r = EmptyString ->
  Transport.body_json r = Transport.Decoded data ->
  data <> JNull ->
  truthy (field (own data "error") "message") = false ->
  run st (handleSearch apiKey companyName companyUrl transport)
  = State false None (Some EmptyString)
  /\ View.error_banner
       (View.render companyName companyUrl
          (run st (handleSearch apiKey companyName companyUrl transport))) = None
  /\ View.result_panel
       (View.render companyName companyUrl
          (run st (handleSearch apiKey companyName companyUrl transport))) = None
  /\ View.submit_disabled
       (View.render companyName companyUrl
          (run st (handleSearch apiKey companyName companyUrl transport))) = false.
Proof.
  intros Hk Ht Hr Hok Hs Hb Hn Hm.
  assert (Hv : passes_validation apiKey companyName companyUrl = true)
    by (apply passes_validation_iff; tauto).
  assert (Hrun : run st (handleSearch apiKey companyName companyUrl transport)
                 = State false None (Some EmptyString)).
  { rewrite (run_passes _ _ _ _ _ _ _ Hv), Hr, (respond_not_ok _ Hok), Hb.
    destruct data; try (now elim Hn); cbv zeta; rewrite Hm, Hs; reflexivity. }
  rewrite Hrun. repeat split.
Qed.

End WithPlatform.

(** The one request of a submission with a name. *)
Lemma one_request_at_most_sample :
  List.length (fetches (Handler.handleSearch Samples.hostname Samples.fault_message
                          "sk-test" "Tesla" EmptyString
                          (Samples.answers true "OK" Samples.hello))) = 1
  /\ Request.headers
       (request_of "sk-test" (Handler.build Samples.hostname "Tesla" EmptyString))
     = [("Content-Type", "application/json"); ("Authorization", "Bearer sk-test")].
Proof.
  destruct (one_request_at_most Samples.hostname Samples.fault_message
              "sk-test" "Tesla" EmptyString
              (Samples.answers true "OK" Samples.hello)) as (_ & Hone & Hreq).
  split.
  - apply Hone. split; [discriminate | left; discriminate].
  - apply Hreq. left. reflexivity.
Defined.

(** The transport fails before any response arrives. *)
Lemma transport_rejection_sample :
  run Samples.succeeded
    (Handler.handleSearch Samples.hostname Samples.fault_message
       "sk-test" "Tesla" EmptyString (fun _ => Transport.Rejected "Failed to fetch"))
  = State false None (Some "Failed to fetch").
Proof.
  apply (transport_rejection Samples.hostname Samples.fault_message
           "sk-test" "Tesla" EmptyString);
    [discriminate | left; discriminate | reflexivity].
Defined.

(** Status 200 with the sample output sequence, and with an output
    sequence that holds a null item. *)
Lemma success_status_sample :
  (exists res,
      Normalizer.normalize Samples.hello = Ok res
      /\ run Samples.idle
           (Handler.handleSearch Samples.hostname Samples.fault_message
              "sk-test" "Tesla" EmptyString (Samples.answers true "OK" Samples.hello))
         = State false (Some res) None)
  /\ (exists f,
      Normalizer.normalize Samples.null_item = Throw (TypeError f)
      /\ run Samples.idle
           (Handler.handleSearch Samples.hostname Samples.fault_message
              "sk-test" "Tesla" EmptyString (Samples.answers true "OK" Samples.null_item))
         = State false None (Some (Samples.fault_message f))).
Proof.
  split.
  - refine (proj1 (success_status Samples.hostname Samples.fault_message
                     "sk-test" "Tesla" EmptyString
                     (Samples.answers true "OK" Samples.hello) Samples.idle
                     _ _ _ eq_refl eq_refl) Samples.hello eq_refl eq_refl);
      [discriminate | left; discriminate].
  - refine (proj1 (proj2 (success_status Samples.hostname Samples.fault_message
                     "sk-test" "Tesla" EmptyString
                     (Samples.answers true "OK" Samples.null_item) Samples.idle
                     _ _ _ eq_refl eq_refl)) Samples.null_item eq_refl eq_refl);
      [discriminate | left; discriminate].
Defined.

(** Status 502 over HTTP/2 (no status text) with the body {}. *)
Lemma silent_failure_sample :
  run Samples.idle
    (Handler.handleSearch Samples.hostname Samples.fault_message
       "sk-test" "Tesla" EmptyString (Samples.answers false EmptyString (JObj [])))
  = State false None (Some EmptyString)
  /\ View.error_banner
       (View.render "Tesla" EmptyString
          (run Samples.idle
             (Handler.handleSearch Samples.hostname Samples.fault_message
                "sk-test" "Tesla" EmptyString
                (Samples.answers false EmptyString (JObj []))))) = None.
Proof.
  destruct (silent_failure Samples.hostname Samples.fault_message
              "sk-test" "Tesla" EmptyString
              (Samples.answers false EmptyString (JObj [])) Samples.idle
              (Transport.Response false EmptyString (Transport.Decoded (JObj [])))
              (JObj [])) as (H1 & H2 & _);
    try reflexivity; try discriminate; [left; discriminate|].
  split; [exact H1 | exact H2].
Defined.

End HandlerMore.

(* ===================================================================== *)
(** ** The component over time *)
(* ===================================================================== *)

Module ViewFacts.
Import JS Normalizer Handler Spec JSFacts HandlerFacts View.

Section WithPlatform.

Variable hostname : string -> option string.
Variable fault_message : fault -> string.
Variable apiKey : string.

#[local] Abbreviation handleSearch := (Handler.handleSearch hostname fault_message).
#[local] Abbreviation start := (View.start hostname fault_message apiKey).
#[local] Abbreviation resume := (View.resume hostname fault_message apiKey).
#[local] Abbreviation suspends := (View.suspends hostname fault_message apiKey).
#[local] Abbreviation step := (View.step hostname fault_message apiKey).
#[local] Abbreviation reachable := (View.reachable hostname fault_message apiKey).

Lemma start_passes (name url : string) :
  passes_validation apiKey name url = true ->
  start name url
  = [SetLoading true; SetError None; SetResult None;
     Fetch (request_of apiKey (Handler.build hostname name url))].
Proof.
  intros Hv. unfold View.start. now rewrite (handleSearch_passes _ _ _ _ _ _ Hv).
Qed.

Lemma start_rejects (name url : string) :
  passes_validation apiKey name url = false ->
  start name url
  = [SetError (Some (if nonempty apiKey then missing_target else missing_key))].
Proof.
  intros Hv. unfold View.start. now rewrite (handleSearch_rejects _ _ _ _ _ _ Hv).
Qed.

Lemma suspends_passes (name url : string) :
  suspends name url = passes_validation apiKey name url.
Proof.
  unfold View.suspends.
  destruct (passes_validation apiKey name url) eqn:Hv.
  - now rewrite (start_passes _ _ Hv).
  - now rewrite (start_rejects _ _ Hv).
Qed.

Lemma resume_passes (name url : string) (f : Transport.fetched) :
  passes_validation apiKey name url = true ->
  resume name url f
  = (Handler.settle fault_message (respond f) ++ [SetLoading false])%list.
Proof.
  intros Hv. unfold View.resume. now rewrite (handleSearch_passes _ _ _ _ _ _ Hv).
Qed.

(** The handler is what it does before the wait followed by what it does
    after. *)
Lemma handleSearch_splits (name url : string)
  (transport : Request.request -> Transport.fetched) :
  handleSearch apiKey name url transport
  = (start name url
      ++ resume name url (transport (request_of apiKey (Handler.build hostname name url))))%list.
Proof.
  destruct (passes_validation apiKey name url) eqn:Hv.
  - rewrite (start_passes _ _ Hv), (resume_passes _ _ _ Hv).
    now rewrite (handleSearch_passes _ _ _ _ _ _ Hv).
  - rewrite (start_rejects _ _ Hv). unfold View.resume.
    now rewrite !(handleSearch_rejects _ _ _ _ _ _ Hv).
Qed.

Lemma run_resume_loading (st : state) (name url : string) (f : Transport.fetched) :
  passes_validation apiKey name url = true ->
  loading (run st (resume name url f)) = false.
Proof.
  intros Hv. rewrite (resume_passes _ _ _ Hv).
  destruct (respond f); reflexivity.
Qed.

(** What holds of the component at all times: the two inputs are never
    both filled in, and either nothing is pending and the form is not
    loading, or one invocation is pending, for the inputs as they stand,
    which pass the guards, with the state cleared and loading. *)
Lemma reachable_invariant (c : component) :
  reachable c ->
  (companyName c = EmptyString \/ companyUrl c = EmptyString)
  /\ ((awaiting c = [] /\ loading (ui c) = false)
      \/ (awaiting c = [(companyName c, companyUrl c)]
          /\ ui c = State true None None
          /\ passes_validation apiKey (companyName c) (companyUrl c) = true)).
Proof.
  induction 1 as [|c c' e Hc [Hform Hflight] Hstep].
  - split; [now left | left; split; reflexivity].
  - destruct c as [name url st pending]. simpl in *.
    destruct e as [text | text | | k f]; simpl in Hstep.
    + destruct (nonempty url || loading st) eqn:Hd; [discriminate|].
      injection Hstep as <-. simpl.
      apply orb_false_elim in Hd as [Hu Hl]. apply nonempty_false in Hu.
      split; [now right|]. left.
      destruct Hflight as [[-> _] | (_ & -> & _)]; [split; [reflexivity | exact Hl]|].
      discriminate.
    + destruct (nonempty name || loading st) eqn:Hd; [discriminate|].
      injection Hstep as <-. simpl.
      apply orb_false_elim in Hd as [Hn Hl]. apply nonempty_false in Hn.
      split; [now left|]. left.
      destruct Hflight as [[-> _] | (_ & -> & _)]; [split; [reflexivity | exact Hl]|].
      discriminate.
    + destruct (loading st) eqn:Hl; [discriminate|].
      injection Hstep as <-. simpl.
      split; [exact Hform|].
      destruct Hflight as [[-> _] | (_ & -> & _)]; [|discriminate].
      rewrite suspends_passes.
      destruct (passes_validation apiKey name url) eqn:Hv.
      * right. rewrite (start_passes _ _ Hv). repeat split.
      * left. rewrite (start_rejects _ _ Hv). split; [reflexivity | exact Hl].
    + destruct (nth_error pending k) as [[n u]|] eqn:Hk; [|discriminate].
      injection Hstep as <-. simpl.
      split; [exact Hform|]. left.
      destruct Hflight as [[-> _] | (-> & _ & Hv)].
      * destruct k; discriminate.
      * destruct k as [|k]; [|destruct k; discriminate].
        simpl in Hk. injection Hk as <- <-.
        split; [reflexivity | now apply run_resume_loading].
Qed.

(** X12.  Through the form, the company name and the company URL are never both
    filled in: each input is disabled as soon as the other holds text. *)
Theorem form_targets_exclusive (c : component) :
  reachable c ->
  companyName c = EmptyString \/ companyUrl c = EmptyString.
Proof. intros H. apply (reachable_invariant c H). Qed.

(** X13.  At most one request is pending at any time, and the form is loading
    exactly while one is: a submission cannot overlap another, and the
    form is released when the pending one settles, whatever the answer. *)
Theorem single_flight (c : component) :
  reachable c ->
  List.length (awaiting c) <= 1
  /\ (loading (ui c) = true <-> awaiting c <> []).
Proof.
  intros H. destruct (reachable_invariant c H) as [_ [[-> Hl] | (-> & -> & _)]].
  - simpl. split; [lia|]. rewrite Hl. split; [discriminate | intros Hn; now elim Hn].
  - simpl. split; [lia|]. split; [discriminate | reflexivity].
Qed.

(** X14.  While a request is pending the form is locked and blank: both inputs
    and the button are disabled, the button reads Analyzing..., neither an
    error nor a result is shown, and no edit or submission can happen. *)
Theorem in_flight_form_is_locked (c : component) :
  reachable c ->
  awaiting c <> [] ->
  render (companyName c) (companyUrl c) (ui c)
  = View.View true true true "Analyzing..." None None
  /\ (forall text, step c (ChangeName text) = None)
  /\ (forall text, step c (ChangeUrl text) = None)
  /\ step c Submit = None.
Proof.
  intros H Hp. destruct (reachable_invariant c H) as [_ [[Ha _] | (_ & Hu & _)]].
  - now elim Hp.
  - unfold View.step, render. rewrite Hu. simpl. rewrite !orb_true_r.
    repeat split.
Qed.

(** X15.  Every request the form sends is for one target: it goes out with a
    credential and with either a name or a URL, never both, so the name is
    never dropped in favour of a URL. *)
Theorem pending_request_has_one_target (c : component) (name url : string) :
  reachable c ->
  In (name, url) (awaiting c) ->
  apiKey <> EmptyString
  /\ ((name <> EmptyString /\ url = EmptyString)
      \/ (name = EmptyString /\ url <> EmptyString)).
Proof.
  intros H Hin.
  destruct (reachable_invariant c H) as [Hform [[Ha _] | (Ha & _ & Hv)]];
    rewrite Ha in Hin; [destruct Hin|].
  destruct Hin as [Heq|[]]. injection Heq as <- <-.
  apply HandlerMore.passes_validation_iff in Hv as [Hk Ht].
  split; [exact Hk|].
  destruct Hform as [Hn|Hu], Ht as [Hn'|Hu']; try tauto.
Qed.

End WithPlatform.

(** Typing a name and submitting it, with a credential, leads to the
    sample component with one request pending. *)
Lemma tesla_in_flight_reachable :
  View.reachable Samples.hostname Samples.fault_message "sk-test"
    MoreSamples.tesla_in_flight.
Proof.
  apply (View.reachable_step _ _ _
           (View.Component "Tesla" EmptyString (State false None None) []) _ View.Submit);
    [|reflexivity].
  apply (View.reachable_step _ _ _ View.initial _ (View.ChangeName "Tesla"));
    [|reflexivity].
  apply View.reachable_initial.
Qed.

Lemma form_targets_exclusive_sample :
  View.companyName MoreSamples.tesla_in_flight = EmptyString
  \/ View.companyUrl MoreSamples.tesla_in_flight = EmptyString.
Proof.
  exact (form_targets_exclusive Samples.hostname Samples.fault_message "sk-test"
           MoreSamples.tesla_in_flight tesla_in_flight_reachable).
Defined.

Lemma single_flight_sample :
  List.length (View.awaiting MoreSamples.tesla_in_flight) <= 1
  /\ (loading (View.ui MoreSamples.tesla_in_flight) = true
      <-> View.awaiting MoreSamples.tesla_in_flight <> []).
Proof.
  exact (single_flight Samples.hostname Samples.fault_message "sk-test"
           MoreSamples.tesla_in_flight tesla_in_flight_reachable).
Defined.

Lemma in_flight_form_is_locked_sample :
  View.step Samples.hostname Samples.fault_message "sk-test"
    MoreSamples.tesla_in_flight View.Submit = None.
Proof.
  refine (proj2 (proj2 (proj2
            (in_flight_form_is_locked Samples.hostname Samples.fault_message "sk-test"
               MoreSamples.tesla_in_flight tesla_in_flight_reachable _)))).
  discriminate.
Defined.

Lemma pending_request_has_one_target_sample :
  "sk-test" <> EmptyString
  /\ (("Tesla" <> EmptyString /\ EmptyString = EmptyString)
      \/ ("Tesla" = EmptyString /\ EmptyString <> EmptyString)).
Proof.
  refine (pending_request_has_one_target Samples.hostname Samples.fault_message "sk-test"
            MoreSamples.tesla_in_flight "Tesla" EmptyString
            tesla_in_flight_reachable _).
  left. reflexivity.
Defined.

End ViewFacts.

(* ===================================================================== *)
(** ** The earlier revision against the current one *)
(* ===================================================================== *)

Module LegacyFacts.
Import JS Normalizer Spec JSFacts NormalizerFacts.

Ltac chase :=
  simpl; rewrite ?bind_ok; simpl; try reflexivity;
  match goal with
  | |- context [lookup ?k ?p] => destruct (lookup k p) as [[]|]; chase
  | |- context [match ?v with _ => _ end] => destruct v; chase
  end.

(** The optional chain of the earlier revision reads the same message as
    the test of the current one. *)
Lemma chain_reads_choices_message (data : json) :
  data <> JNull ->
  (choices <- get (Some data) "choices" ;;
   first <- Legacy.get0_opt choices ;;
   message <- get_opt first "message" ;;
   get_opt message "content")
  = Ok (if truthy (choices_message data)
        then field (choices_message data) "content"
        else undefined).
Proof.
  intros Hn. rewrite (get_not_null _ _ Hn), bind_ok. unfold choices_message.
  destruct (own data "choices") as [[| b | r | s | [|x rest] | props]|]; chase.
Qed.

Lemma extract_view (data : json) :
  data <> JNull ->
  Legacy.extract data
  = Ok (if truthy (own data "output_text") then own data "output_text"
        else if truthy (choices_message data)
                && truthy (field (choices_message data) "content")
        then field (choices_message data) "content"
        else Some (JStr (stringify data))).
Proof.
  intros Hn. unfold Legacy.extract. rewrite (get_not_null _ _ Hn), bind_ok.
  destruct (truthy (own data "output_text")); [reflexivity|].
  pose proof (chain_reads_choices_message data Hn) as Hc.
  destruct (get (Some data) "choices") as [choices|]; [|discriminate].
  rewrite bind_ok in *.
  destruct (Legacy.get0_opt choices) as [first|]; [|discriminate].
  rewrite bind_ok in *.
  destruct (get_opt first "message") as [message|]; [|discriminate].
  rewrite bind_ok in *. rewrite Hc, bind_ok.
  destruct (truthy (choices_message data)); simpl; [|reflexivity].
  destruct (truthy (field (choices_message data) "content")); reflexivity.
Qed.

(** X16.  The earlier revision raises on the body null only; on any other body
    it returns a value that is neither undefined nor null: a truthy
    output_text, else a truthy content of the first choice, else the
    pretty-printed body. *)
Theorem legacy_extract_defined (data : json) :
  (data = JNull ->
   Legacy.extract data = Throw (TypeError (CannotReadNull "output_text")))
  /\ (data <> JNull ->
      exists j, Legacy.extract data = Ok (Some j) /\ j <> JNull).
Proof.
  split; [now intros ->|].
  intros Hn. rewrite (extract_view _ Hn).
  destruct (truthy (own data "output_text")) eqn:Ht.
  - destruct (truthy_not_null _ Ht) as (j & -> & Hj). now exists j.
  - destruct (truthy (choices_message data)
              && truthy (field (choices_message data) "content")) eqn:Hc.
    + apply andb_prop in Hc as [_ Hc].
      destruct (truthy_not_null _ Hc) as (j & -> & Hj). now exists j.
    + eexists. split; [reflexivity | discriminate].
Qed.

Lemma legacy_extract_defined_sample :
  exists j, Legacy.extract Samples.foo_bar = Ok (Some j) /\ j <> JNull.
Proof.
  apply (proj2 (legacy_extract_defined Samples.foo_bar)). discriminate.
Defined.



End LegacyFacts.
